(** * LabJacker U3: the sequence thread, the device status store, the state
    log and the pressure calibration of [labjacker_u3.py], embedded in Rocq.

    The Qt widgets (labels, buttons, dialogs) are left out; what is kept is
    the control logic behind them: the signals the sequence thread emits and
    the order it emits them in, the slots that act on the device, the status
    dict, the log file and the calibration.  Python classes become modules,
    methods become functions on an explicit object state, signals become
    events of a trace. *)

From Stdlib Require Import ZArith List String Ascii Bool Lia DecimalString.
From Stdlib Require Import PrimFloat FloatOps SpecFloat.
From stdpp Require Import gmap strings.
Import ListNotations.

Open Scope string_scope.
Open Scope Z_scope.

Set Warnings "-inexact-float".

(** ** Python values shared by the classes *)

(** [str(n)] / ['{0}'.format(n)] for an [int]. *)
Definition str_int (z : Z) : string := NilZero.string_of_int (Z.to_int z).

(** The four FIO keys of the dicts [init_cond], [io_labels], [io_states]
    and [status]: ['fio4'] .. ['fio7']. *)
Inductive fio : Type := fio4 | fio5 | fio6 | fio7.

(** [self.io_labels[k]] for a FIO key. *)
Definition io_labels (k : fio) : string :=
  match k with
  | fio4 => "Valve 1"
  | fio5 => "Valve 2"
  | fio6 => "Valve 3"
  | fio7 => "Valve 4"
  end.

(** [self.io_states[k][state]]: [{0: 'Open', 1: 'Closed'}] for every FIO
    key; any other state is a [KeyError] ([None]). *)
Definition io_states (k : fio) (state : Z) : option string :=
  match state with
  | 0 => Some "Open"
  | 1 => Some "Closed"
  | _ => None
  end.

(** A number as [eval] of an arithmetic formula returns it: [int] or
    [float]. *)
Inductive pynum : Type :=
| PyInt (z : Z)
| PyFloat (f : float).

(** [self.status]: the dict shared by the UI object, the pollers' slots and
    the sequence thread.  Python's [None] is [None]. *)
Record Status : Type := mkStatus {
  temp : option float;
  ain0 : option float;
  ain1 : option float;
  vd : option float;
  pres : option pynum;
  st_fio4 : option Z;
  st_fio5 : option Z;
  st_fio6 : option Z;
  st_fio7 : option Z;
  seq_running : bool
}.

(** [status[k]] for a FIO key. *)
Definition status_fio (st : Status) (k : fio) : option Z :=
  match k with
  | fio4 => st_fio4 st
  | fio5 => st_fio5 st
  | fio6 => st_fio6 st
  | fio7 => st_fio7 st
  end.

(** [status[k] = v] for a FIO key. *)
Definition set_status_fio (k : fio) (v : option Z) (st : Status) : Status :=
  match k with
  | fio4 => mkStatus (temp st) (ain0 st) (ain1 st) (vd st) (pres st)
              v (st_fio5 st) (st_fio6 st) (st_fio7 st) (seq_running st)
  | fio5 => mkStatus (temp st) (ain0 st) (ain1 st) (vd st) (pres st)
              (st_fio4 st) v (st_fio6 st) (st_fio7 st) (seq_running st)
  | fio6 => mkStatus (temp st) (ain0 st) (ain1 st) (vd st) (pres st)
              (st_fio4 st) (st_fio5 st) v (st_fio7 st) (seq_running st)
  | fio7 => mkStatus (temp st) (ain0 st) (ain1 st) (vd st) (pres st)
              (st_fio4 st) (st_fio5 st) (st_fio6 st) v (seq_running st)
  end.

(** ['fio{0}'.format(fio_id)] as a key of the dicts: only 4..7 are keys. *)
Definition fio_of_id (fio_id : Z) : option fio :=
  match fio_id with
  | 4 => Some fio4
  | 5 => Some fio5
  | 6 => Some fio6
  | 7 => Some fio7
  | _ => None
  end.

(** ** class LabJackerSeq(QThread) *)

Module LabJackerSeq.

(** The pyqtSignals of the class, with their payload. *)
Inductive Signal : Type :=
| set_log_file
| set_sample_name
| set_seq_int
| set_loop_count
| log_state (timestamp : string)
| toggle_fio (fio_id : Z)
| toggle_run (b : bool)
| log_msg (msg : string)
| display_alert (msg : string).

(** What the thread does that the outside can observe: it emits a signal,
    sleeps for a step ([time.sleep(n)], whole seconds), or sleeps 0.1 s in
    one turn of a [while ... is None] wait loop. *)
Inductive Event : Type :=
| emit (s : Signal)
| sleep (secs : Z)
| poll.

(** The command strings the class hands to [eval]:
    ['time.sleep(n)'], ['self.toggle_fio.emit(n)'] and
    ['self.toggle_run.emit(b)']. *)
Inductive Code : Type :=
| time_sleep (secs : Z)
| toggle_fio_emit (fio_id : Z)
| toggle_run_emit (b : bool).

(** The Python text of a command. *)
Definition source (c : Code) : string :=
  match c with
  | time_sleep secs => "time.sleep(" ++ str_int secs ++ ")"
  | toggle_fio_emit n => "self.toggle_fio.emit(" ++ str_int n ++ ")"
  | toggle_run_emit b => "self.toggle_run.emit(" ++ (if b then "True" else "False") ++ ")"
  end.

(** A sequence entry [[command, message, log_state]]. *)
Definition Command : Type := Code * string * bool.

(** What the UI slots store in [seq_int] and [loop_count]: [''] when the
    dialog was cancelled, else the [int] of the dialog. *)
Inductive Reply : Type :=
| empty
| number (z : Z).

(** Truth value of a stored string ([not self.log_file]). *)
Definition truthy_str (s : string) : bool := negb (String.eqb s "").

(** Truth value of a stored reply ([not self.seq_int]). *)
Definition truthy_reply (r : Reply) : bool :=
  match r with
  | empty => false
  | number z => negb (z =? 0)
  end.

(** The thread object: the fields [__init__] sets to [None], and [past],
    the events performed so far (oldest first). *)
Record Thread : Type := mkThread {
  past : list Event;
  log_file : option string;
  sample_name : option string;
  seq_int : option Reply;
  loop_count : option Reply;
  seq : option (list Command)
}.

(** [LabJackerSeq(io_labels, io_states, status)] just after [__init__]. *)
Definition init : Thread := mkThread [] None None None None None.

(** What the other threads do to this one, as far as [run] can tell.
    Time is counted in events performed by the thread:
    - [clock n] is the formatted time [get_timestamp] returns when [n]
      events are past;
    - [stop_after = Some n]: the UI's [toggle_run] sets [self.quit = True]
      while the [n]-th event is the last one performed (or before any, for
      0); [None]: it never does.  [quit] is never reset;
    - [status] is the shared status dict as [check_init_state] reads it;
    - each [ans_*] is the value the UI slot stores into the field, and the
      number of 0.1 s polls the thread makes before it is there; [None]:
      the field is never set. *)
Record Env : Type := mkEnv {
  clock : nat -> string;
  stop_after : option nat;
  status : Status;
  ans_log_file : option (nat * string);
  ans_sample_name : option (nat * string);
  ans_seq_int : option (nat * Reply);
  ans_loop_count : option (nat * Reply)
}.

(** How a piece of the thread's code ends: with a value, by [return] out
    of [run], with an exception, or never (a wait loop whose field is never
    set). *)
Inductive Flow (A : Type) : Type :=
| Value (a : A)
| Return
| Raised
| Blocked.
Arguments Value {A} a.
Arguments Return {A}.
Arguments Raised {A}.
Arguments Blocked {A}.

(** Code of the thread: it reads and changes the thread object. *)
Definition M (A : Type) : Type := Thread -> Flow A * Thread.

Definition ret {A} (a : A) : M A := fun t => (Value a, t).

Definition bind {A B} (m : M A) (k : A -> M B) : M B :=
  fun t =>
    match m t with
    | (Value a, t') => k a t'
    | (Return, t') => (Return, t')
    | (Raised, t') => (Raised, t')
    | (Blocked, t') => (Blocked, t')
    end.

Declare Scope seq_scope.
Delimit Scope seq_scope with seq.
Notation "x <- m ;; k" := (bind m (fun x => k))
  (at level 100, m at next level, k at level 200, right associativity) : seq_scope.
Notation "m ;; k" := (bind m (fun _ => k))
  (at level 100, k at level 200, right associativity) : seq_scope.
Open Scope seq_scope.

(** [return] inside [run]. *)
Definition exit {A} : M A := fun t => (Return, t).

(** An uncaught exception. *)
Definition raise {A} : M A := fun t => (Raised, t).

(** A wait that never ends. *)
Definition block {A} : M A := fun t => (Blocked, t).

(** Perform one event. *)
Definition perform (ev : Event) : M unit :=
  fun t => (Value tt,
            mkThread (past t ++ [ev])%list (log_file t) (sample_name t)
                     (seq_int t) (loop_count t) (seq t)).

(** Read a field of the thread object. *)
Definition get {A} (field : Thread -> A) : M A := fun t => (Value (field t), t).

(** [self.quit], as the other thread has left it by now. *)
Definition stopped (e : Env) (n : nat) : bool :=
  match stop_after e with
  | Some k => (k <=? n)%nat
  | None => false
  end.

Definition quit (e : Env) : M bool :=
  fun t => (Value (stopped e (length (past t))), t).

(** [get_timestamp]: the current time in [date_format]. *)
Definition get_timestamp (e : Env) : M string :=
  fun t => (Value (clock e (length (past t))), t).

(** [eval(seq_cmd)].  [time.sleep] of a negative length raises
    [ValueError]. *)
Definition eval (c : Code) : M unit :=
  match c with
  | time_sleep secs => if secs <? 0 then raise else perform (sleep secs)
  | toggle_fio_emit n => perform (emit (toggle_fio n))
  | toggle_run_emit b => perform (emit (toggle_run b))
  end.

(** [run_command(command)] *)
Definition run_command (e : Env) (command : Command) : M unit :=
  q <- quit e ;;
  if negb q then
    let '(seq_cmd, seq_msg, log_state_flag) := command in
    seq_time <- get_timestamp e ;;
    perform (emit (log_msg (seq_time ++ " : " ++ seq_msg))) ;;
    (if log_state_flag : bool then perform (emit (log_state seq_time)) else ret tt) ;;
    eval seq_cmd
  else ret tt.

(** [self.init_cond], in the order the dict is iterated. *)
Definition init_cond : list (fio * Z) :=
  [(fio4, 1); (fio5, 1); (fio6, 1); (fio7, 1)].

(** The [req_state] list of [display_state_error]; a state with no label is
    a [KeyError]. *)
Fixpoint req_state (conds : list (fio * Z)) : option (list string) :=
  match conds with
  | [] => Some []
  | (i, fio_init_cond) :: rest =>
      match io_states i fio_init_cond, req_state rest with
      | Some fio_req_state, Some l =>
          Some (("  " ++ io_labels i ++ " : " ++ fio_req_state) :: l)
      | _, _ => None
      end
  end.

(** [display_state_error()] *)
Definition display_state_error : M unit :=
  match req_state init_cond with
  | Some l =>
      let req_state_txt := String.concat (String (ascii_of_nat 10) "") l in
      let alert_msg :=
        "Required initial state:    " ++ String (ascii_of_nat 10) (String (ascii_of_nat 10) "")
        ++ req_state_txt in
      perform (emit (display_alert alert_msg))
  | None => raise
  end.

(** [req_state != cur_state] for an [int] against [None] or an [int]. *)
Definition differs (req_state : Z) (cur_state : option Z) : bool :=
  match cur_state with
  | Some c => negb (req_state =? c)
  | None => true
  end.

(** The [for] loop of [check_init_state] over the rest of [init_cond]. *)
Fixpoint check_from (e : Env) (conds : list (fio * Z)) : M bool :=
  match conds with
  | [] => ret true
  | (i, req_state) :: rest =>
      let cur_state := status_fio (status e) i in
      if differs req_state cur_state then
        perform (emit (toggle_run true)) ;;
        display_state_error ;;
        seq_time <- get_timestamp e ;;
        let seq_msg := "valve states do not match required initial state" in
        perform (emit (log_msg (seq_time ++ " : " ++ seq_msg))) ;;
        ret false
      else check_from e rest
  end.

(** [check_init_state()] *)
Definition check_init_state (e : Env) : M bool := check_from e init_cond.

(** The list [set_sequence] builds for [self.seq_int = seq_int]. *)
Definition sequence (seq_int : Z) : list Command :=
  let sleep_str := time_sleep seq_int in
  let wait_str := "waiting for " ++ str_int seq_int ++ " seconds" in
  [ (time_sleep 0, "sequence starting ...", true);
    (toggle_fio_emit 5, "opening valve 2", false);
    (toggle_fio_emit 6, "opening valve 3", false);
    (toggle_fio_emit 7, "opening valve 4", false);
    (sleep_str, wait_str, false);
    (toggle_fio_emit 5, "closing valve 2", true);
    (toggle_fio_emit 7, "closing valve 4", false);
    (toggle_fio_emit 4, "opening valve 1", false);
    (sleep_str, wait_str, false);
    (toggle_fio_emit 4, "closing valve 1", true);
    (sleep_str, wait_str, false);
    (toggle_fio_emit 5, "opening valve 2", true);
    (sleep_str, wait_str, false);
    (toggle_fio_emit 7, "opening valve 4", true);
    (sleep_str, wait_str, false);
    (toggle_fio_emit 5, "closing valve 2", true);
    (toggle_fio_emit 6, "closing valve 3", false);
    (toggle_fio_emit 7, "closing valve 4", false) ].

(** [set_sequence()]: stores the list in [self.seq].  [run] calls it with
    [seq_int] an [int]; with [None] or [''] the sleep command would not
    evaluate, which is [Raised] here. *)
Definition set_sequence : M unit :=
  fun t =>
    match seq_int t with
    | Some (number z) =>
        (Value tt,
         mkThread (past t) (log_file t) (sample_name t) (seq_int t)
                  (loop_count t) (Some (sequence z)))
    | _ => (Raised, t)
    end.

(** [for x in l: body(x)] *)
Fixpoint for_each {A} (l : list A) (body : A -> M unit) : M unit :=
  match l with
  | [] => ret tt
  | x :: rest => body x ;; for_each rest body
  end.

(** [range(n)] *)
Definition range (n : Z) : list Z := map Z.of_nat (List.seq 0 (Z.to_nat n)).

(** [n] turns of [time.sleep(0.1)]. *)
Fixpoint polls (n : nat) : M unit :=
  match n with
  | O => ret tt
  | S k => perform poll ;; polls k
  end.

(** [while self.<field> is None: time.sleep(0.1)], then the field holds
    the answer. *)
Definition await {A} (field : Thread -> option A) (answer : option (nat * A))
    (store : A -> Thread -> Thread) : M unit :=
  cur <- get field ;;
  match cur with
  | Some _ => ret tt
  | None =>
      match answer with
      | Some (n, a) => polls n ;; (fun t => (Value tt, store a t))
      | None => block
      end
  end.

Definition store_log_file (a : string) (t : Thread) : Thread :=
  mkThread (past t) (Some a) (sample_name t) (seq_int t) (loop_count t) (seq t).
Definition store_sample_name (a : string) (t : Thread) : Thread :=
  mkThread (past t) (log_file t) (Some a) (seq_int t) (loop_count t) (seq t).
Definition store_seq_int (a : Reply) (t : Thread) : Thread :=
  mkThread (past t) (log_file t) (sample_name t) (Some a) (loop_count t) (seq t).
Definition store_loop_count (a : Reply) (t : Thread) : Thread :=
  mkThread (past t) (log_file t) (sample_name t) (seq_int t) (Some a) (seq t).

(** [not self.<field>] *)
Definition falsy {A} (truthy : A -> bool) (v : option A) : bool :=
  match v with
  | Some a => negb (truthy a)
  | None => true
  end.

(** One turn of the loop [for i in range(self.loop_count)] of [run]. *)
Definition run_loop (e : Env) (n : Z) (commands : list Command) (i : Z) : M unit :=
  q <- quit e ;;
  if negb q then
    seq_time <- get_timestamp e ;;
    let seq_msg :=
      "starting sequence loop " ++ str_int (i + 1) ++ " of " ++ str_int n in
    perform (emit (log_msg (seq_time ++ " : " ++ seq_msg))) ;;
    for_each commands (run_command e)
  else ret tt.

(** The part of [run] after the four parameters are in: [set_sequence],
    the loops, and the completion command. *)
Definition run_sequence (e : Env) : M unit :=
  set_sequence ;;
  n <- get loop_count ;;
  commands <- get seq ;;
  match n, commands with
  | Some (number n), Some commands =>
      for_each (range n) (run_loop e n commands) ;;
      run_command e (toggle_run_emit true, "finished", false)
  | _, _ => raise
  end.

(** [run()] *)
Definition run (e : Env) : M unit :=
  ok <- check_init_state e ;;
  if ok : bool then
    perform (emit set_log_file) ;;
    await log_file (ans_log_file e) store_log_file ;;
    v <- get log_file ;;
    (if falsy truthy_str v then
       run_command e (toggle_run_emit true,
                      "no output file specified. not starting", false) ;;
       exit
     else ret tt) ;;
    perform (emit set_sample_name) ;;
    await sample_name (ans_sample_name e) store_sample_name ;;
    v <- get sample_name ;;
    (if falsy truthy_str v then
       run_command e (toggle_run_emit true,
                      "no sample name specified. not starting", false) ;;
       exit
     else ret tt) ;;
    perform (emit set_seq_int) ;;
    await seq_int (ans_seq_int e) store_seq_int ;;
    v <- get seq_int ;;
    (if falsy truthy_reply v then
       run_command e (toggle_run_emit true,
                      "no time step interval specified. not starting", false) ;;
       exit
     else ret tt) ;;
    perform (emit set_loop_count) ;;
    await loop_count (ans_loop_count e) store_loop_count ;;
    v <- get loop_count ;;
    (if falsy truthy_reply v then
       run_command e (toggle_run_emit true,
                      "no loop count specified. not starting", false) ;;
       exit
     else ret tt) ;;
    run_sequence e
  else ret tt.

End LabJackerSeq.

(** ** Strings as the program handles them *)

(** The line feed ['\n']. *)
Definition LF : ascii := ascii_of_nat 10.

(** Python's whitespace among the ASCII characters ([str.strip], [\s]). *)
Definition is_space (c : ascii) : bool :=
  let n := nat_of_ascii c in
  ((9 <=? n)%nat && (n <=? 13)%nat) || ((28 <=? n)%nat && (n <=? 32)%nat).

(** [s.split(sep)] for a one-character separator. *)
Fixpoint split_on (sep : ascii) (s : string) : list string :=
  match s with
  | EmptyString => [""]
  | String c rest =>
      if Ascii.eqb c sep then "" :: split_on sep rest
      else
        match split_on sep rest with
        | [] => [String c ""]
        | w :: ws => String c w :: ws
        end
  end.

(** [s.lstrip()] *)
Fixpoint lstrip (s : string) : string :=
  match s with
  | EmptyString => ""
  | String c rest => if is_space c then lstrip rest else s
  end.

(** [s.rstrip()] *)
Fixpoint rstrip (s : string) : string :=
  match s with
  | EmptyString => ""
  | String c rest =>
      match rstrip rest with
      | EmptyString => if is_space c then "" else String c ""
      | r => String c r
      end
  end.

(** [s.strip()] *)
Definition strip (s : string) : string := rstrip (lstrip s).

(** [f.readlines()]: the lines of a text, each with its line feed. *)
Fixpoint readlines (s : string) : list string :=
  match s with
  | EmptyString => []
  | String c rest =>
      if Ascii.eqb c LF then String c "" :: readlines rest
      else
        match readlines rest with
        | [] => [String c ""]
        | l :: ls => String c l :: ls
        end
  end.

(** ** Evaluation of a calibration formula

    [eval(self.calibration['pres'])] runs Python on a text with [v] bound to
    the voltage difference.  [py_eval] is Python's evaluation restricted to
    arithmetic: decimal literals without exponent, the name [v], the binary
    operators [+ - * /], unary [+ -], parentheses, blanks.  [None] stands
    for an exception ([SyntaxError], [NameError], [ZeroDivisionError],
    [OverflowError]); a text outside this fragment counts as one that fails
    to evaluate. *)

Inductive token : Type :=
| TNum (x : pynum)
| TVar
| TPlus | TMinus | TStar | TSlash
| TLParen | TRParen.

(** The number the lexer is in the middle of: none, the digits of an
    integer part, or the digits before and after a point (latest digit
    first). *)
Inductive numstate : Type :=
| NoNum
| InInt (ds : list Z)
| InFrac (ds fs : list Z).

(** The value of a digit string, latest digit first. *)
Fixpoint digits_value (ds : list Z) : Z :=
  match ds with
  | [] => 0
  | d :: rest => d + 10 * digits_value rest
  end.

(** An [int] as the exact rational it is, in the format of [SpecFloat]. *)
Definition Z2SF (z : Z) : spec_float :=
  match z with
  | Z0 => S754_zero false
  | Zpos p => S754_finite false p 0
  | Zneg p => S754_finite true p 0
  end.

(** [a / b] rounded once to the nearest binary64 (ties to even), as both the
    reading of a decimal literal and [int / int] do. *)
Definition div_rounded (a b : Z) : spec_float := SFdiv prec emax (Z2SF a) (Z2SF b).

(** The [float] of the literal with digits [ds] before and [fs] after the
    point. *)
Definition float_literal (ds fs : list Z) : float :=
  SF2Prim (div_rounded (digits_value (fs ++ ds)%list) (10 ^ Z.of_nat (length fs))).

(** The [int] of a literal: a nonzero one may not start with [0]. *)
Definition int_literal (ds : list Z) : option Z :=
  let z := digits_value ds in
  match List.last ds 1 with
  | 0 => if (z =? 0) then Some 0 else None
  | _ => Some z
  end.

(** The token of the number just read, if there is one and it is well
    formed; [Some None] when no number was being read. *)
Definition flush (st : numstate) : option (option token) :=
  match st with
  | NoNum => Some None
  | InInt ds =>
      match int_literal ds with
      | Some z => Some (Some (TNum (PyInt z)))
      | None => None
      end
  | InFrac [] [] => None
  | InFrac ds fs => Some (Some (TNum (PyFloat (float_literal ds fs))))
  end.

Definition digit_of (c : ascii) : option Z :=
  let n := nat_of_ascii c in
  if ((48 <=? n)%nat && (n <=? 57)%nat) then Some (Z.of_nat n - 48) else None.

(** The token of a one-character symbol; a blank gives no token. *)
Definition symbol (c : ascii) : option (option token) :=
  match c with
  | "+"%char => Some (Some TPlus)
  | "-"%char => Some (Some TMinus)
  | "*"%char => Some (Some TStar)
  | "/"%char => Some (Some TSlash)
  | "("%char => Some (Some TLParen)
  | ")"%char => Some (Some TRParen)
  | "v"%char => Some (Some TVar)
  | " "%char => Some None
  | "009"%char => Some None
  | _ => None
  end.

Definition push (o : option token) (acc : list token) : list token :=
  match o with
  | Some t => t :: acc
  | None => acc
  end.

(** The lexer: [acc] holds the tokens read so far, latest first. *)
Fixpoint lex (s : string) (st : numstate) (acc : list token) : option (list token) :=
  match s with
  | EmptyString =>
      match flush st with
      | Some o => Some (rev (push o acc))
      | None => None
      end
  | String c rest =>
      match digit_of c with
      | Some d =>
          match st with
          | NoNum => lex rest (InInt [d]) acc
          | InInt ds => lex rest (InInt (d :: ds)) acc
          | InFrac ds fs => lex rest (InFrac ds (d :: fs)) acc
          end
      | None =>
          if Ascii.eqb c "."%char then
            match st with
            | NoNum => lex rest (InFrac [] []) acc
            | InInt ds => lex rest (InFrac ds []) acc
            | InFrac _ _ => None
            end
          else
            match flush st, symbol c with
            | Some o, Some o' => lex rest NoNum (push o' (push o acc))
            | _, _ => None
            end
      end
  end.

Inductive expr : Type :=
| Num (x : pynum)
| Var
| Pos (e : expr)
| Neg (e : expr)
| Add (a b : expr)
| Sub (a b : expr)
| Mul (a b : expr)
| Div (a b : expr).

(** The parser, by recursive descent; [n] bounds the depth of the calls.
    [parse_expr]: terms joined by [+ -]; [parse_term]: factors joined by
    [* /]; [parse_factor]: signs, then a number, [v] or a parenthesis. *)
Fixpoint parse_expr (n : nat) (ts : list token) : option (expr * list token) :=
  match n with
  | O => None
  | S n' =>
      match parse_term n' ts with
      | Some (a, rest) => expr_rest n' a rest
      | None => None
      end
  end
with expr_rest (n : nat) (a : expr) (ts : list token) : option (expr * list token) :=
  match n with
  | O => None
  | S n' =>
      match ts with
      | TPlus :: rest =>
          match parse_term n' rest with
          | Some (b, rest') => expr_rest n' (Add a b) rest'
          | None => None
          end
      | TMinus :: rest =>
          match parse_term n' rest with
          | Some (b, rest') => expr_rest n' (Sub a b) rest'
          | None => None
          end
      | _ => Some (a, ts)
      end
  end
with parse_term (n : nat) (ts : list token) : option (expr * list token) :=
  match n with
  | O => None
  | S n' =>
      match parse_factor n' ts with
      | Some (a, rest) => term_rest n' a rest
      | None => None
      end
  end
with term_rest (n : nat) (a : expr) (ts : list token) : option (expr * list token) :=
  match n with
  | O => None
  | S n' =>
      match ts with
      | TStar :: rest =>
          match parse_factor n' rest with
          | Some (b, rest') => term_rest n' (Mul a b) rest'
          | None => None
          end
      | TSlash :: rest =>
          match parse_factor n' rest with
          | Some (b, rest') => term_rest n' (Div a b) rest'
          | None => None
          end
      | _ => Some (a, ts)
      end
  end
with parse_factor (n : nat) (ts : list token) : option (expr * list token) :=
  match n with
  | O => None
  | S n' =>
      match ts with
      | TPlus :: rest =>
          match parse_factor n' rest with
          | Some (a, rest') => Some (Pos a, rest')
          | None => None
          end
      | TMinus :: rest =>
          match parse_factor n' rest with
          | Some (a, rest') => Some (Neg a, rest')
          | None => None
          end
      | TNum x :: rest => Some (Num x, rest)
      | TVar :: rest => Some (Var, rest)
      | TLParen :: rest =>
          match parse_expr n' rest with
          | Some (a, TRParen :: rest') => Some (a, rest')
          | _ => None
          end
      | _ => None
      end
  end.

(** The syntax tree of a formula; [None] is a [SyntaxError]. *)
Definition parse (src : string) : option expr :=
  match lex src NoNum [] with
  | Some ts =>
      match parse_expr (4 * length ts + 4) ts with
      | Some (e, []) => Some e
      | _ => None
      end
  | None => None
  end.

(** [float(z)]: the nearest binary64, [OverflowError] beyond the range. *)
Definition float_of_int (z : Z) : option float :=
  match binary_normalize prec emax z 0 false with
  | S754_infinity _ => None
  | S754_nan => None
  | x => Some (SF2Prim x)
  end.

(** [int / int]: the quotient rounded once. *)
Definition int_true_div (a b : Z) : option float :=
  if b =? 0 then None
  else
    match div_rounded a b with
    | S754_infinity _ => None
    | S754_nan => None
    | x => Some (SF2Prim x)
    end.

Definition to_float (x : pynum) : option float :=
  match x with
  | PyInt z => float_of_int z
  | PyFloat f => Some f
  end.

(** A binary operator on numbers: [on_int] when both are [int], else
    [on_float] on their [float]s. *)
Definition arith (on_int : Z -> Z -> option pynum)
    (on_float : float -> float -> option pynum) (x y : pynum) : option pynum :=
  match x, y with
  | PyInt a, PyInt b => on_int a b
  | _, _ =>
      match to_float x, to_float y with
      | Some a, Some b => on_float a b
      | _, _ => None
      end
  end.

Definition py_add : pynum -> pynum -> option pynum :=
  arith (fun a b => Some (PyInt (a + b))) (fun a b => Some (PyFloat (a + b)%float)).
Definition py_sub : pynum -> pynum -> option pynum :=
  arith (fun a b => Some (PyInt (a - b))) (fun a b => Some (PyFloat (a - b)%float)).
Definition py_mul : pynum -> pynum -> option pynum :=
  arith (fun a b => Some (PyInt (a * b))) (fun a b => Some (PyFloat (a * b)%float)).
(** [/] raises [ZeroDivisionError] on a zero divisor. *)
Definition py_div : pynum -> pynum -> option pynum :=
  arith (fun a b => option_map PyFloat (int_true_div a b))
        (fun a b => if PrimFloat.eqb b 0%float then None else Some (PyFloat (a / b)%float)).
Definition py_neg (x : pynum) : pynum :=
  match x with
  | PyInt z => PyInt (- z)
  | PyFloat f => PyFloat (- f)%float
  end.

(** The value of a syntax tree with [v] bound to a [float]. *)
Fixpoint eval_expr (e : expr) (v : float) : option pynum :=
  let binary op a b :=
    match eval_expr a v, eval_expr b v with
    | Some x, Some y => op x y
    | _, _ => None
    end in
  match e with
  | Num x => Some x
  | Var => Some (PyFloat v)
  | Pos a => eval_expr a v
  | Neg a => option_map py_neg (eval_expr a v)
  | Add a b => binary py_add a b
  | Sub a b => binary py_sub a b
  | Mul a b => binary py_mul a b
  | Div a b => binary py_div a b
  end.

(** [eval(src)] with [v] bound. *)
Definition py_eval (src : string) (v : float) : option pynum :=
  match parse src with
  | Some e => eval_expr e v
  | None => None
  end.

(** ** get_calibration *)

(** The calibration file as [get_calibration] finds it. *)
Inductive ConfigFile : Type :=
| Missing
| Unreadable
| Text (content : string).

(** [re.match(r'^\s?p\s?=\s?', cl)]: at most one blank, [p], at most one
    blank, [=]. *)
Definition matches_p_eq (cl : string) : bool :=
  let skip_blank s :=
    match s with
    | String c rest => if is_space c then rest else s
    | EmptyString => s
    end in
  match skip_blank cl with
  | String "p"%char rest =>
      match skip_blank rest with
      | String "="%char _ => true
      | _ => false
      end
  | _ => false
  end.

(** [get_calibration()]: the dict read from the file, [None] when the file
    is missing or reading it fails. *)
Definition get_calibration (config : ConfigFile) : option (gmap string string) :=
  match config with
  | Missing => None
  | Unreadable => None
  | Text content =>
      Some (fold_left
              (fun (calibration : gmap string string) cl =>
                 if matches_p_eq cl
                 then <["pres" := strip (nth 1 (split_on "="%char cl) "")]> calibration
                 else calibration)
              (readlines content) ∅)
  end.

(** ** The dummy device of u3.py *)

Module u3.

Record U3 : Type := mkU3 {
  fio_state : gmap Z Z
}.

(** [U3()] *)
Definition new : U3 :=
  mkU3 (list_to_map [(1, 1); (2, 1); (3, 1); (4, 1); (5, 1); (6, 1); (7, 1); (8, 1)]).

(** [getFIOState(fio_id)]; [None] is the [KeyError] of the dict. *)
Definition getFIOState (d : U3) (fio_id : Z) : option Z := fio_state d !! fio_id.

(** [setFIOState(fio_id, state)] *)
Definition setFIOState (d : U3) (fio_id state : Z) : U3 :=
  mkU3 (<[fio_id := state]> (fio_state d)).

(** The entries of [device_properties] the UI shows. *)
Record Config : Type := mkConfig {
  DeviceName : string;
  SerialNumber : Z;
  FirmwareVersion : string
}.

(** [configU3()] *)
Definition configU3 (d : U3) : Config := mkConfig "U3-HV" 320048582 "1.46".

End u3.

(** [connect_u3()]: the device when [u3.U3()] returns one; when it raises,
    an alert is shown and [None] is returned.  [attempt] is what [u3.U3()]
    does; the second component is the text of the alert, if any. *)
Definition connect_u3 (attempt : option u3.U3) : option u3.U3 * list string :=
  match attempt with
  | Some u3_dev => (Some u3_dev, [])
  | None => (None, ["Failed to connect to U3 device"])
  end.

(** ** class LabJackerUI(QWidget) *)

Module LabJackerUI.

(** The object, without its widgets, and the files it writes: [disk] maps
    a path to the content of the file there. *)
Record UI : Type := mkUI {
  calibration : gmap string string;
  dev : option u3.U3;
  status : Status;
  log_file : option string;
  sample_name : string;
  disk : gmap string string
}.

(** A method returns, or raises; the object is as the method left it. *)
Inductive Outcome : Type :=
| Ok (ui : UI)
| Raised (ui : UI).

Definition calibration_default : gmap string string :=
  {[ "pres" := "(5.0221 * v) - 24.036" ]}.

(** [__init__]: the status dict is all [None], the calibration is the one
    of the file when there is a non-empty one, else the default;
    [init_ui] connects the device. *)
Definition new (config : ConfigFile) (device : option u3.U3)
    (files : gmap string string) : UI :=
  let calibration :=
    match get_calibration config with
    | Some c => if decide (c = ∅) then calibration_default else c
    | None => calibration_default
    end in
  mkUI calibration device
       (mkStatus None None None None None None None None None false)
       None "sample_name" files.

Definition with_status (st : Status) (ui : UI) : UI :=
  mkUI (calibration ui) (dev ui) st (log_file ui) (sample_name ui) (disk ui).
Definition with_dev (d : option u3.U3) (ui : UI) : UI :=
  mkUI (calibration ui) d (status ui) (log_file ui) (sample_name ui) (disk ui).
Definition with_calibration (c : gmap string string) (ui : UI) : UI :=
  mkUI c (dev ui) (status ui) (log_file ui) (sample_name ui) (disk ui).
Definition with_disk (files : gmap string string) (ui : UI) : UI :=
  mkUI (calibration ui) (dev ui) (status ui) (log_file ui) (sample_name ui) files.

(** [update_fio_status(fio_id)] *)
Definition update_fio_status (fio_id : Z) (ui : UI) : Outcome :=
  match dev ui with
  | Some d =>
      match u3.getFIOState d fio_id, fio_of_id fio_id with
      | Some fio_state, Some fio_str =>
          match io_states fio_str fio_state with
          | Some fio_label =>
              Ok (with_status (set_status_fio fio_str (Some fio_state) (status ui)) ui)
          | None => Raised ui
          end
      | _, _ => Raised ui
      end
  | None =>
      match fio_of_id fio_id with
      | Some fio_str => Ok (with_status (set_status_fio fio_str None (status ui)) ui)
      | None => Raised ui
      end
  end.

(** [toggle_fio_state(fio_id)] *)
Definition toggle_fio_state (fio_id : Z) (ui : UI) : Outcome :=
  match dev ui with
  | Some d =>
      match u3.getFIOState d fio_id with
      | Some fio_state =>
          let new_fio_state := if negb (fio_state =? 0) then 0 else 1 in
          update_fio_status fio_id
            (with_dev (Some (u3.setFIOState d fio_id new_fio_state)) ui)
      | None => Raised ui
      end
  | None => Ok ui
  end.

Definition toggle_fio4_state : UI -> Outcome := toggle_fio_state 4.
Definition toggle_fio5_state : UI -> Outcome := toggle_fio_state 5.
Definition toggle_fio6_state : UI -> Outcome := toggle_fio_state 6.
Definition toggle_fio7_state : UI -> Outcome := toggle_fio_state 7.

(** The header line of [log_state]. *)
Definition log_hdr : string :=
  String.concat ""
    [ "date," ++ "sample_name,";
      "pressure,";
      "voltage_0,voltage_1,voltage_diff";
      "valve_state_1,valve_state_2,";
      "valve_state_3,valve_state_4" ++ String LF "" ].

(** [open(path, 'a')] then [write(text)]: the file is created when it is
    not there. *)
Definition append_file (path text : string) (files : gmap string string)
    : gmap string string :=
  <[path := default "" (files !! path) ++ text]> files.

(** [os.path.exists(path)] *)
Definition path_exists (path : string) (files : gmap string string) : bool :=
  bool_decide (is_Some (files !! path)).

(** [os.path.getsize(path)] of a file that is there. *)
Definition getsize (path : string) (files : gmap string string) : Z :=
  Z.of_nat (String.length (default "" (files !! path))).

(** ['{0}'.format(x)] for an entry of the status dict. *)
Definition str_float (float_str : float -> string) (x : option float) : string :=
  match x with
  | Some f => float_str f
  | None => "None"
  end.
Definition str_num (float_str : float -> string) (x : option pynum) : string :=
  match x with
  | Some (PyInt z) => str_int z
  | Some (PyFloat f) => float_str f
  | None => "None"
  end.

(** [self.io_states[k][self.status[k]]] *)
Definition state_label (st : Status) (k : fio) : option string :=
  match status_fio st k with
  | Some s => io_states k s
  | None => None
  end.

(** The arguments of [log_msg.format] in [log_state], in order; [None]
    when a valve state has no label ([KeyError]). *)
Definition log_fields (float_str : float -> string) (timestamp : string) (ui : UI)
    : option (list string) :=
  let st := status ui in
  match state_label st fio4, state_label st fio5,
        state_label st fio6, state_label st fio7 with
  | Some l4, Some l5, Some l6, Some l7 =>
      Some [ timestamp; sample_name ui; str_num float_str (pres st);
             str_float float_str (ain0 st); str_float float_str (ain1 st);
             str_float float_str (vd st); l4; l5; l6; l7 ]
  | _, _, _, _ => None
  end.

(** ['{0},{1},{2},{3},{4},{5},{6},{7},{8},{9}\n'.format(...)] *)
Definition log_msg (fields : list string) : string :=
  String.concat "," fields ++ String LF "".

(** [log_state(timestamp)]; [float_str] is Python's [str] of a [float]. *)
Definition log_state (float_str : float -> string) (timestamp : string) (ui : UI)
    : Outcome :=
  match log_file ui with
  | Some path =>
      let ui :=
        if negb (path_exists path (disk ui)) || (getsize path (disk ui) =? 0)
        then with_disk (append_file path log_hdr (disk ui)) ui
        else ui in
      let ui := with_disk (append_file path "" (disk ui)) ui in
      match log_fields float_str timestamp ui with
      | Some fields => Ok (with_disk (append_file path (log_msg fields) (disk ui)) ui)
      | None => Raised ui
      end
  | None => Raised ui
  end.

(** Truth value of [v] in [update_ain]: [None] and zero are false. *)
Definition truthy_float (v : option float) : bool :=
  match v with
  | Some f => negb (PrimFloat.eqb f 0%float)
  | None => false
  end.

Definition set_ain0 (x : option float) (st : Status) : Status :=
  mkStatus (temp st) x (ain1 st) (vd st) (pres st)
           (st_fio4 st) (st_fio5 st) (st_fio6 st) (st_fio7 st) (seq_running st).
Definition set_ain1 (x : option float) (st : Status) : Status :=
  mkStatus (temp st) (ain0 st) x (vd st) (pres st)
           (st_fio4 st) (st_fio5 st) (st_fio6 st) (st_fio7 st) (seq_running st).
Definition set_vd (x : option float) (st : Status) : Status :=
  mkStatus (temp st) (ain0 st) (ain1 st) x (pres st)
           (st_fio4 st) (st_fio5 st) (st_fio6 st) (st_fio7 st) (seq_running st).
Definition set_pres (x : option pynum) (st : Status) : Status :=
  mkStatus (temp st) (ain0 st) (ain1 st) (vd st) x
           (st_fio4 st) (st_fio5 st) (st_fio6 st) (st_fio7 st) (seq_running st).

(** [update_ain()], with the default [ain_ids=[0, 1]] the poller's signal
    leaves it.  [eval] is Python's [eval] of a formula with [v] bound
    ([None]: it raises); [getAIN] is what the device answers at this tick
    ([None]: the read raises).  With no device every read raises. *)
Definition update_ain (eval : string -> float -> option pynum)
    (getAIN : Z -> option float) (ui : UI) : Outcome :=
  let read ain_id :=
    match dev ui with
    | Some _ => getAIN ain_id
    | None => None
    end in
  let st := set_ain0 (read 0) (status ui) in
  let st := set_ain1 (read 1) st in
  let vd :=
    match ain1 st, ain0 st with
    | Some a1, Some a0 => Some (a1 - a0)%float
    | _, _ => None
    end in
  let st := set_vd vd st in
  let v := vd in
  match v with
  | Some x =>
      if truthy_float v then
        match calibration ui !! "pres" ≫= (fun src => eval src x) with
        | Some pres_value => Ok (with_status (set_pres (Some pres_value) st) ui)
        | None =>
            match calibration_default !! "pres" with
            | Some src =>
                let ui := with_calibration (<["pres" := src]> (calibration ui)) ui in
                match eval src x with
                | Some pres_value => Ok (with_status (set_pres (Some pres_value) st) ui)
                | None => Raised (with_status st ui)
                end
            | None => Raised (with_status st ui)
            end
        end
      else Ok (with_status (set_pres None st) ui)
  | None => Ok (with_status (set_pres None st) ui)
  end.

(** A run of calls of a method, until one raises. *)
Fixpoint run_calls {A} (method : A -> UI -> Outcome) (args : list A) (ui : UI)
    : Outcome :=
  match args with
  | [] => Ok ui
  | a :: rest =>
      match method a ui with
      | Ok ui' => run_calls method rest ui'
      | Raised ui' => Raised ui'
      end
  end.

(** [start_seq] connects the thread's signal [toggle_fio] to
    [toggle_fio_state].  [actuate commands ui] delivers the [toggle_fio]
    signals of the valve commands to that slot, in order, and reports for
    each its message with the label of the valve's state once the slot has
    run ([None] when the slot raised or the state has no label). *)
Fixpoint actuate (commands : list LabJackerSeq.Command) (ui : UI)
    : list (string * option string) * UI :=
  match commands with
  | [] => ([], ui)
  | (LabJackerSeq.toggle_fio_emit fio_id, seq_msg, _) :: rest =>
      let ui' :=
        match toggle_fio_state fio_id ui with
        | Ok ui' => ui'
        | Raised ui' => ui'
        end in
      let after := fio_of_id fio_id ≫= state_label (status ui') in
      let '(reports, ui'') := actuate rest ui' in
      ((seq_msg, after) :: reports, ui'')
  | _ :: rest => actuate rest ui
  end.

Definition set_temp (x : option float) (st : Status) : Status :=
  mkStatus x (ain0 st) (ain1 st) (vd st) (pres st)
           (st_fio4 st) (st_fio5 st) (st_fio6 st) (st_fio7 st) (seq_running st).

(** [update_temp()]: [getTemperature] is what the device answers at this
    tick, in kelvin ([None]: the read raises).  With no device the read
    raises; the method catches every exception. *)
Definition update_temp (getTemperature : option float) (ui : UI) : Outcome :=
  let read :=
    match dev ui with
    | Some _ => getTemperature
    | None => None
    end in
  match read with
  | Some temp =>
      let temp_deg_c := (temp - 273.15)%float in
      Ok (with_status (set_temp (Some temp_deg_c) (status ui)) ui)
  | None => Ok (with_status (set_temp None (status ui)) ui)
  end.

End LabJackerUI.

(** ** class LabJackerUI(QWidget), with its widgets and its sequence thread

    [LabJackerUI.UI] is the object without its widgets.  [Window.W] is the
    whole object: the dicts [buttons], [status_area] and [fio_area] (a
    widget that is still [None] is a key that is not there), the message
    area, the values the dialogs remember, and the handle on the sequence
    thread.  Of a button its text and whether it is enabled are kept, of a
    label its text; colours, check marks, fonts and the layout are left
    out, and so are the labels that show the readings. *)

Module Window.

Record Button : Type := mkButton {
  text : string;
  enabled : bool
}.

(** [seq_thread] is [status['seq_thread']]: the [quit] flag of the
    [LabJackerSeq] object and its other fields; [started] counts the calls
    of [seq_thread.start()]; [seq_text] holds the lines of the message area
    [seq_area['text']]; [alerts_shown] the texts of the message boxes. *)
Record W : Type := mkW {
  ui : LabJackerUI.UI;
  working_dir : string;
  seq_int : Z;
  loop_count : Z;
  u3_config : option u3.Config;
  u3_connected : bool;
  buttons : gmap string Button;
  status_area : gmap string string;
  fio_area : gmap string string;
  seq_text : option (list string);
  seq_thread : option (bool * LabJackerSeq.Thread);
  started : nat;
  alerts_shown : list string
}.

Definition with_ui (x : LabJackerUI.UI) (w : W) : W :=
  mkW x (working_dir w) (seq_int w) (loop_count w) (u3_config w) (u3_connected w)
      (buttons w) (status_area w) (fio_area w) (seq_text w) (seq_thread w)
      (started w) (alerts_shown w).
Definition with_working_dir (x : string) (w : W) : W :=
  mkW (ui w) x (seq_int w) (loop_count w) (u3_config w) (u3_connected w)
      (buttons w) (status_area w) (fio_area w) (seq_text w) (seq_thread w)
      (started w) (alerts_shown w).
Definition with_seq_int (x : Z) (w : W) : W :=
  mkW (ui w) (working_dir w) x (loop_count w) (u3_config w) (u3_connected w)
      (buttons w) (status_area w) (fio_area w) (seq_text w) (seq_thread w)
      (started w) (alerts_shown w).
Definition with_loop_count (x : Z) (w : W) : W :=
  mkW (ui w) (working_dir w) (seq_int w) x (u3_config w) (u3_connected w)
      (buttons w) (status_area w) (fio_area w) (seq_text w) (seq_thread w)
      (started w) (alerts_shown w).
Definition with_u3_config (x : option u3.Config) (w : W) : W :=
  mkW (ui w) (working_dir w) (seq_int w) (loop_count w) x (u3_connected w)
      (buttons w) (status_area w) (fio_area w) (seq_text w) (seq_thread w)
      (started w) (alerts_shown w).
Definition with_u3_connected (x : bool) (w : W) : W :=
  mkW (ui w) (working_dir w) (seq_int w) (loop_count w) (u3_config w) x
      (buttons w) (status_area w) (fio_area w) (seq_text w) (seq_thread w)
      (started w) (alerts_shown w).
Definition with_buttons (x : gmap string Button) (w : W) : W :=
  mkW (ui w) (working_dir w) (seq_int w) (loop_count w) (u3_config w) (u3_connected w)
      x (status_area w) (fio_area w) (seq_text w) (seq_thread w)
      (started w) (alerts_shown w).
Definition with_status_area (x : gmap string string) (w : W) : W :=
  mkW (ui w) (working_dir w) (seq_int w) (loop_count w) (u3_config w) (u3_connected w)
      (buttons w) x (fio_area w) (seq_text w) (seq_thread w)
      (started w) (alerts_shown w).
Definition with_fio_area (x : gmap string string) (w : W) : W :=
  mkW (ui w) (working_dir w) (seq_int w) (loop_count w) (u3_config w) (u3_connected w)
      (buttons w) (status_area w) x (seq_text w) (seq_thread w)
      (started w) (alerts_shown w).
Definition with_seq_text (x : option (list string)) (w : W) : W :=
  mkW (ui w) (working_dir w) (seq_int w) (loop_count w) (u3_config w) (u3_connected w)
      (buttons w) (status_area w) (fio_area w) x (seq_thread w)
      (started w) (alerts_shown w).
Definition with_seq_thread (x : option (bool * LabJackerSeq.Thread)) (w : W) : W :=
  mkW (ui w) (working_dir w) (seq_int w) (loop_count w) (u3_config w) (u3_connected w)
      (buttons w) (status_area w) (fio_area w) (seq_text w) x
      (started w) (alerts_shown w).
Definition with_started (x : nat) (w : W) : W :=
  mkW (ui w) (working_dir w) (seq_int w) (loop_count w) (u3_config w) (u3_connected w)
      (buttons w) (status_area w) (fio_area w) (seq_text w) (seq_thread w)
      x (alerts_shown w).
Definition with_alerts_shown (x : list string) (w : W) : W :=
  mkW (ui w) (working_dir w) (seq_int w) (loop_count w) (u3_config w) (u3_connected w)
      (buttons w) (status_area w) (fio_area w) (seq_text w) (seq_thread w)
      (started w) x.

(** A method returns, or raises; the object is as the method left it. *)
Inductive Result : Type :=
| Done (w : W)
| Failed (w : W).

(** A piece of the body of a method. *)
Definition Act : Type := W -> Result.

(** Statements one after the other. *)
Fixpoint block (body : list Act) (w : W) : Result :=
  match body with
  | [] => Done w
  | a :: rest =>
      match a w with
      | Done w' => block rest w'
      | Failed w' => Failed w'
      end
  end.

Definition pass : Act := Done.

Definition assign (f : W -> W) : Act := fun w => Done (f w).

(** [if test: a else: b] *)
Definition if_else (test : W -> bool) (a b : Act) : Act :=
  fun w => if test w then a w else b w.

(** A method of the object without its widgets, run on the whole object. *)
Definition lift (method : LabJackerUI.UI -> LabJackerUI.Outcome) : Act :=
  fun w =>
    match method (ui w) with
    | LabJackerUI.Ok u => Done (with_ui u w)
    | LabJackerUI.Raised u => Failed (with_ui u w)
    end.

(** [self.u3['dev']] as a condition: a device object is true, [None] is
    not. *)
Definition has_dev (w : W) : bool := bool_decide (is_Some (LabJackerUI.dev (ui w))).

(** [self.status['seq_running']] *)
Definition is_running (w : W) : bool := seq_running (LabJackerUI.status (ui w)).

Definition set_dev (d : option u3.U3) : Act :=
  assign (fun w => with_ui (LabJackerUI.with_dev d (ui w)) w).

Definition set_seq_running (b : bool) : Act :=
  assign (fun w =>
    let st := LabJackerUI.status (ui w) in
    with_ui (LabJackerUI.with_status
               (mkStatus (temp st) (ain0 st) (ain1 st) (vd st) (pres st)
                         (st_fio4 st) (st_fio5 st) (st_fio6 st) (st_fio7 st) b)
               (ui w)) w).

(** [self.status[k] = v] for a FIO key. *)
Definition set_status_entry (k : fio) (v : option Z) : Act :=
  assign (fun w =>
    with_ui (LabJackerUI.with_status
               (set_status_fio k v (LabJackerUI.status (ui w))) (ui w)) w).

Definition setText (txt : string) (b : Button) : Button := mkButton txt (enabled b).
Definition setEnabled (e : bool) (b : Button) : Button := mkButton (text b) e.
(** [setChecked], of which nothing is kept. *)
Definition setChecked (c : bool) (b : Button) : Button := b.

(** [self.buttons[key].<setter>(...)]: a button that is [None] has no
    setter ([AttributeError]). *)
Definition button (key : string) (setter : Button -> Button) : Act :=
  fun w =>
    match buttons w !! key with
    | Some b => Done (with_buttons (<[key := setter b]> (buttons w)) w)
    | None => Failed w
    end.

(** [self.buttons[key]] as a condition. *)
Definition has_button (key : string) (w : W) : bool :=
  bool_decide (is_Some (buttons w !! key)).

(** [self.fio_area[key].setText(txt)] *)
Definition fio_area_setText (key txt : string) : Act :=
  fun w =>
    match fio_area w !! key with
    | Some _ => Done (with_fio_area (<[key := txt]> (fio_area w)) w)
    | None => Failed w
    end.

(** [self.status_area[key].setText(txt)] *)
Definition status_area_setText (key txt : string) : Act :=
  fun w =>
    match status_area w !! key with
    | Some _ => Done (with_status_area (<[key := txt]> (status_area w)) w)
    | None => Failed w
    end.

(** [self.status['seq_thread'].<field> = ...]; with no thread object the
    assignment raises. *)
Definition on_thread (f : bool * LabJackerSeq.Thread -> bool * LabJackerSeq.Thread)
    : Act :=
  fun w =>
    match seq_thread w with
    | Some th => Done (with_seq_thread (Some (f th)) w)
    | None => Failed w
    end.

(** [update_fio_status(fio_id)].  Only ['fio4'] .. ['fio7'] are keys of
    [io_states] and of [buttons]; with another port and no device the status
    dict would get a new key, which nothing reads, before the lookup of the
    button raises. *)
Definition update_fio_status (fio_id : Z) : Act :=
  fun w =>
    let fio_str := "fio" ++ str_int fio_id in
    let fio_value_key := "value_" ++ fio_str in
    match LabJackerUI.dev (ui w) with
    | Some d =>
        match u3.getFIOState d fio_id, fio_of_id fio_id with
        | Some fio_state, Some k =>
            match io_states k fio_state with
            | Some fio_label =>
                block [ fio_area_setText fio_value_key fio_label;
                        set_status_entry k (Some fio_state);
                        if_else (fun w => has_button fio_str w && negb (is_running w))
                          (button fio_str (setEnabled true))
                          pass ] w
            | None => Failed w
            end
        | _, _ => Failed w
        end
    | None =>
        block [ fio_area_setText fio_value_key "--";
                (fun w =>
                   match fio_of_id fio_id with
                   | Some k =>
                       block [ set_status_entry k None;
                               if_else (has_button fio_str)
                                 (button fio_str (setEnabled false))
                                 pass ] w
                   | None => Failed w
                   end) ] w
    end.

(** [toggle_fio_state(fio_id)] *)
Definition toggle_fio_state (fio_id : Z) : Act :=
  fun w =>
    match LabJackerUI.dev (ui w) with
    | Some d =>
        match u3.getFIOState d fio_id with
        | Some fio_state =>
            let new_fio_state := if negb (fio_state =? 0) then 0 else 1 in
            block [ set_dev (Some (u3.setFIOState d fio_id new_fio_state));
                    update_fio_status fio_id ] w
        | None => Failed w
        end
    | None => Done w
    end.

Definition toggle_fio4_state : Act := toggle_fio_state 4.
Definition toggle_fio5_state : Act := toggle_fio_state 5.
Definition toggle_fio6_state : Act := toggle_fio_state 6.
Definition toggle_fio7_state : Act := toggle_fio_state 7.

(** [start_seq()]: a new thread object, with [quit] false and its fields
    [None], takes the place of the one before; its signals are connected
    (to the slots of [slot] below; the message area must be there) and it
    is started. *)
Definition start_seq : Act :=
  block [ assign (with_seq_thread (Some (false, LabJackerSeq.init)));
          (fun w => match seq_text w with
                    | Some _ => Done w
                    | None => Failed w
                    end);
          assign (fun w => with_started (S (started w)) w) ].

(** [toggle_run()] *)
Definition toggle_run : Act :=
  if_else is_running
    (block [ on_thread (fun th => (true, snd th));
             button "fio4" (setEnabled true);
             button "fio5" (setEnabled true);
             button "fio6" (setEnabled true);
             button "fio7" (setEnabled true);
             button "run" (setChecked false);
             button "run" (setText "Run");
             set_seq_running false ])
    (block [ button "run" (setText "Stop");
             button "run" (setChecked true);
             set_seq_running true;
             button "fio4" (setEnabled false);
             button "fio5" (setEnabled false);
             button "fio6" (setEnabled false);
             button "fio7" (setEnabled false);
             start_seq ]).

(** [toggle_connect()]; [attempt] is what [u3.U3()] does if it is called. *)
Definition toggle_connect (attempt : option u3.U3) : Act :=
  block [ if_else has_dev
            (block [ set_dev None;
                     assign (with_u3_config None);
                     assign (with_u3_connected false);
                     button "connect" (setText "Connect");
                     status_area_setText "value_dev" "--";
                     status_area_setText "value_sn" "--";
                     status_area_setText "value_fw" "--";
                     if_else is_running toggle_run pass;
                     button "run" (setEnabled false);
                     button "connect" (setChecked false) ])
            (block [ set_dev (fst (connect_u3 attempt));
                     assign (fun w =>
                       with_alerts_shown
                         (alerts_shown w ++ snd (connect_u3 attempt))%list w) ]);
          (fun w =>
             match LabJackerUI.dev (ui w) with
             | Some d =>
                 block [ assign (with_u3_config (Some (u3.configU3 d)));
                         button "connect" (setText "Disconnect");
                         assign (with_u3_connected true);
                         button "run" (setEnabled true);
                         button "connect" (setChecked true) ] w
             | None => button "connect" (setChecked false) w
             end);
          (fun w =>
             match u3_config w with
             | Some config =>
                 block [ status_area_setText "value_dev" (u3.DeviceName config);
                         status_area_setText "value_sn" (str_int (u3.SerialNumber config));
                         status_area_setText "value_fw" (u3.FirmwareVersion config) ] w
             | None => Done w
             end);
          update_fio_status 4;
          update_fio_status 5;
          update_fio_status 6;
          update_fio_status 7 ].

(** [display_alert(alert_msg)] *)
Definition display_alert (alert_msg : string) : Act :=
  assign (fun w => with_alerts_shown (alerts_shown w ++ [alert_msg])%list w).

(** [self.seq_area['text'].append(msg)] *)
Definition seq_text_append (msg : string) : Act :=
  fun w =>
    match seq_text w with
    | Some lines => Done (with_seq_text (Some (lines ++ [msg])%list) w)
    | None => Failed w
    end.

Definition ui_with_log_file (x : option string) (u : LabJackerUI.UI) : LabJackerUI.UI :=
  LabJackerUI.mkUI (LabJackerUI.calibration u) (LabJackerUI.dev u) (LabJackerUI.status u)
    x (LabJackerUI.sample_name u) (LabJackerUI.disk u).
Definition ui_with_sample_name (x : string) (u : LabJackerUI.UI) : LabJackerUI.UI :=
  LabJackerUI.mkUI (LabJackerUI.calibration u) (LabJackerUI.dev u) (LabJackerUI.status u)
    (LabJackerUI.log_file u) x (LabJackerUI.disk u).

(** [set_log_file()]; [chosen] is the path the file dialog returns, [''] when
    it is cancelled; [dirname] is [os.path.dirname]. *)
Definition set_log_file (dirname : string -> string) (chosen : string) : Act :=
  let log_file := chosen in
  block [ assign (with_working_dir (dirname log_file));
          assign (fun w => with_ui (ui_with_log_file (Some log_file) (ui w)) w);
          on_thread (fun th => (fst th, LabJackerSeq.store_log_file log_file (snd th))) ].

(** [set_sample_name()]; [answer] is what [QInputDialog.getText] returns:
    the text and whether the dialog was accepted. *)
Definition set_sample_name (answer : string * bool) : Act :=
  let '(sample_name, status) := answer in
  if negb status then
    on_thread (fun th => (fst th, LabJackerSeq.store_sample_name "" (snd th)))
  else
    block [ assign (fun w => with_ui (ui_with_sample_name sample_name (ui w)) w);
            on_thread (fun th =>
              (fst th, LabJackerSeq.store_sample_name sample_name (snd th))) ].

(** [set_seq_int()]; [answer] is what [QInputDialog.getInt] returns. *)
Definition set_seq_int (answer : Z * bool) : Act :=
  let '(seq_int, status) := answer in
  if negb status then
    on_thread (fun th => (fst th, LabJackerSeq.store_seq_int LabJackerSeq.empty (snd th)))
  else
    block [ assign (with_seq_int seq_int);
            on_thread (fun th =>
              (fst th,
               LabJackerSeq.store_seq_int (LabJackerSeq.number seq_int) (snd th))) ].

(** [set_loop_count()] *)
Definition set_loop_count (answer : Z * bool) : Act :=
  let '(loop_count, status) := answer in
  if negb status then
    on_thread (fun th => (fst th, LabJackerSeq.store_loop_count LabJackerSeq.empty (snd th)))
  else
    block [ assign (with_loop_count loop_count);
            on_thread (fun th =>
              (fst th,
               LabJackerSeq.store_loop_count (LabJackerSeq.number loop_count) (snd th))) ].

(** [log_state(timestamp)], [update_ain()] and [update_temp()] act on no
    widget that is kept. *)
Definition log_state (float_str : float -> string) (timestamp : string) : Act :=
  lift (LabJackerUI.log_state float_str timestamp).
Definition update_ain (eval : string -> float -> option pynum)
    (getAIN : Z -> option float) : Act :=
  lift (LabJackerUI.update_ain eval getAIN).
Definition update_temp (getTemperature : option float) : Act :=
  lift (LabJackerUI.update_temp getTemperature).

(** What the operator answers when a dialog opens. *)
Record Operator : Type := mkOperator {
  file_dialog : string;
  name_dialog : string * bool;
  interval_dialog : Z * bool;
  count_dialog : Z * bool
}.

(** The connections [start_seq] makes: the slot that runs when the thread
    has emitted a signal. *)
Definition slot (float_str : float -> string) (dirname : string -> string)
    (op : Operator) (s : LabJackerSeq.Signal) : Act :=
  match s with
  | LabJackerSeq.log_msg msg => seq_text_append msg
  | LabJackerSeq.set_log_file => set_log_file dirname (file_dialog op)
  | LabJackerSeq.set_sample_name => set_sample_name (name_dialog op)
  | LabJackerSeq.set_seq_int => set_seq_int (interval_dialog op)
  | LabJackerSeq.set_loop_count => set_loop_count (count_dialog op)
  | LabJackerSeq.log_state timestamp => log_state float_str timestamp
  | LabJackerSeq.toggle_fio fio_id => toggle_fio_state fio_id
  | LabJackerSeq.toggle_run _ => toggle_run
  | LabJackerSeq.display_alert msg => display_alert msg
  end.

(** The buttons as their constructors make them. *)
Definition button_connect (w : W) : Button :=
  if has_dev w then mkButton "Disconnect" true else mkButton "Connect" true.
Definition button_quit (w : W) : Button := mkButton "Quit" true.
Definition button_fio (w : W) : Button :=
  if has_dev w then mkButton "Toggle State" true else mkButton "Toggle State" false.
Definition button_run (w : W) : Button :=
  let b := if is_running w then mkButton "Stop" true else mkButton "Run" true in
  if negb (has_dev w) then setEnabled false b else b.
Definition button_clear (w : W) : Button := mkButton "Clear" true.

Definition add_header_area : Act :=
  block [ assign (fun w => with_buttons (<["connect" := button_connect w]> (buttons w)) w);
          assign (fun w => with_buttons (<["quit" := button_quit w]> (buttons w)) w) ].

Definition add_status_area : Act :=
  let value (field : u3.Config -> string) (w : W) : string :=
    match u3_config w with
    | Some config => field config
    | None => "--"
    end in
  block [ assign (fun w =>
            with_status_area (<["value_dev" := value u3.DeviceName w]> (status_area w)) w);
          assign (fun w =>
            with_status_area
              (<["value_sn" := value (fun c => str_int (u3.SerialNumber c)) w]>
                 (status_area w)) w);
          assign (fun w =>
            with_status_area (<["value_fw" := value u3.FirmwareVersion w]> (status_area w)) w) ].

Definition add_fio_area : Act :=
  let row (fio_id : Z) : Act :=
    let fio_str := "fio" ++ str_int fio_id in
    block [ assign (fun w => with_fio_area (<["value_" ++ fio_str := "--"]> (fio_area w)) w);
            update_fio_status fio_id;
            assign (fun w => with_buttons (<[fio_str := button_fio w]> (buttons w)) w) ] in
  block [ row 4; row 5; row 6; row 7 ].

Definition add_seq_header_area : Act :=
  block [ assign (fun w => with_buttons (<["clear" := button_clear w]> (buttons w)) w);
          assign (fun w => with_buttons (<["run" := button_run w]> (buttons w)) w) ].

Definition add_seq_area : Act := assign (with_seq_text (Some [])).

(** [init_ui()]; the two polling threads it starts are the ticks of
    [update_temp] and [update_ain]. *)
Definition init_ui (attempt : option u3.U3) : Act :=
  block [ set_dev (fst (connect_u3 attempt));
          assign (fun w =>
            with_alerts_shown (alerts_shown w ++ snd (connect_u3 attempt))%list w);
          (fun w =>
             match LabJackerUI.dev (ui w) with
             | Some d =>
                 block [ assign (with_u3_config (Some (u3.configU3 d)));
                         assign (with_u3_connected true) ] w
             | None => Done w
             end);
          add_header_area;
          add_status_area;
          add_fio_area;
          add_seq_header_area;
          add_seq_area ].

(** [LabJackerUI()]: [__init__], which ends with [init_ui].  [home] is the
    home directory of the user. *)
Definition new (config : ConfigFile) (attempt : option u3.U3)
    (files : gmap string string) (home : string) : Result :=
  init_ui attempt
    (mkW (LabJackerUI.new config None files) home 180 6 None false ∅ ∅ ∅ None None 0 []).

(** A click on the button [key]: the handler connected to [clicked] runs
    when the button is there and enabled. *)
Definition clicked (attempt : option u3.U3) (key : string) : Act :=
  fun w =>
    match buttons w !! key with
    | Some b =>
        if enabled b then
          (if String.eqb key "connect" then toggle_connect attempt
           else if String.eqb key "run" then toggle_run
           else if String.eqb key "fio4" then toggle_fio4_state
           else if String.eqb key "fio5" then toggle_fio5_state
           else if String.eqb key "fio6" then toggle_fio6_state
           else if String.eqb key "fio7" then toggle_fio7_state
           else if String.eqb key "clear" then assign (with_seq_text (Some []))
           else pass) w
        else Done w
    | None => Done w
    end.

End Window.

(** ** What is read off a trace and a status *)

(** The texts of the [display_alert] signals among some events. *)
Fixpoint alerts (l : list LabJackerSeq.Event) : list string :=
  match l with
  | [] => []
  | LabJackerSeq.emit (LabJackerSeq.display_alert msg) :: rest => msg :: alerts rest
  | _ :: rest => alerts rest
  end.

(** The texts of the [log_msg] signals among some events. *)
Fixpoint log_lines (l : list LabJackerSeq.Event) : list string :=
  match l with
  | [] => []
  | LabJackerSeq.emit (LabJackerSeq.log_msg msg) :: rest => msg :: log_lines rest
  | _ :: rest => log_lines rest
  end.

(** The events that are steps of a sequence: a valve toggle, a step sleep,
    a state log. *)
Definition is_step (ev : LabJackerSeq.Event) : bool :=
  match ev with
  | LabJackerSeq.emit (LabJackerSeq.toggle_fio _) => true
  | LabJackerSeq.emit (LabJackerSeq.log_state _) => true
  | LabJackerSeq.sleep _ => true
  | _ => false
  end.

(** The requests for a parameter among some events. *)
Definition is_request (ev : LabJackerSeq.Event) : bool :=
  match ev with
  | LabJackerSeq.emit LabJackerSeq.set_log_file => true
  | LabJackerSeq.emit LabJackerSeq.set_sample_name => true
  | LabJackerSeq.emit LabJackerSeq.set_seq_int => true
  | LabJackerSeq.emit LabJackerSeq.set_loop_count => true
  | _ => false
  end.

(** All four valve entries of a status dict hold 1 (Closed). *)
Definition all_closed (st : Status) : bool :=
  forallb (fun k => bool_decide (status_fio st k = Some 1)) [fio4; fio5; fio6; fio7].

(** A text without the character [c]. *)
Fixpoint free_of (c : ascii) (s : string) : bool :=
  match s with
  | EmptyString => true
  | String a rest => negb (Ascii.eqb a c) && free_of c rest
  end.

(** The log-state flag of a sequence entry. *)
Definition flagged (command : LabJackerSeq.Command) : bool := snd command.

(** A sequence entry without its interval: the kind of its command (a
    sleep, or the valve it toggles), and its flag. *)
Definition outline (command : LabJackerSeq.Command) : option Z * bool :=
  match command with
  | (LabJackerSeq.toggle_fio_emit fio_id, _, flag) => (Some fio_id, flag)
  | (_, _, flag) => (None, flag)
  end.

(** The thread [t] once it has performed the events [l] as well. *)
Definition extend (t : LabJackerSeq.Thread) (l : list LabJackerSeq.Event)
    : LabJackerSeq.Thread :=
  LabJackerSeq.mkThread (LabJackerSeq.past t ++ l)%list
    (LabJackerSeq.log_file t) (LabJackerSeq.sample_name t)
    (LabJackerSeq.seq_int t) (LabJackerSeq.loop_count t) (LabJackerSeq.seq t).

(** The alert of [display_state_error]. *)
Definition alert_text : string :=
  String.concat (String LF "")
    [ "Required initial state:    "; "";
      "  Valve 1 : Closed"; "  Valve 2 : Closed";
      "  Valve 3 : Closed"; "  Valve 4 : Closed" ].

(** What [check_init_state] performs on a mismatch, when [n] events are
    past. *)
Definition mismatch_events (e : LabJackerSeq.Env) (n : nat) : list LabJackerSeq.Event :=
  [ LabJackerSeq.emit (LabJackerSeq.toggle_run true);
    LabJackerSeq.emit (LabJackerSeq.display_alert alert_text);
    LabJackerSeq.emit
      (LabJackerSeq.log_msg
         (LabJackerSeq.clock e (n + 2)
          ++ " : valve states do not match required initial state")) ].

(** The events by which [run_command] announces a command when [n]
    events are past: the log line and, for a flagged command, the state
    log. *)
Definition announce (e : LabJackerSeq.Env) (n : nat) (msg : string) (flag : bool)
    : list LabJackerSeq.Event :=
  LabJackerSeq.emit (LabJackerSeq.log_msg (LabJackerSeq.clock e n ++ " : " ++ msg))
  :: (if flag then [LabJackerSeq.emit (LabJackerSeq.log_state (LabJackerSeq.clock e n))]
      else []).

(** A command whose evaluation raises: a sleep of negative length. *)
Definition raises (c : LabJackerSeq.Code) : bool :=
  match c with
  | LabJackerSeq.time_sleep secs => secs <? 0
  | _ => false
  end.

(** The event a command is, once evaluated. *)
Definition effect (c : LabJackerSeq.Code) : list LabJackerSeq.Event :=
  match c with
  | LabJackerSeq.time_sleep secs =>
      if secs <? 0 then [] else [LabJackerSeq.sleep secs]
  | LabJackerSeq.toggle_fio_emit n => [LabJackerSeq.emit (LabJackerSeq.toggle_fio n)]
  | LabJackerSeq.toggle_run_emit b => [LabJackerSeq.emit (LabJackerSeq.toggle_run b)]
  end.

(** All the events of a command that is carried out when [n] events are
    past. *)
Definition command_events (e : LabJackerSeq.Env) (n : nat)
    (command : LabJackerSeq.Command) : list LabJackerSeq.Event :=
  (announce e n (snd (fst command)) (snd command) ++ effect (fst (fst command)))%list.

(** The command [run] ends with, after the message [msg]. *)
Definition closing (msg : string) : LabJackerSeq.Command :=
  (LabJackerSeq.toggle_run_emit true, msg, false).

(** What the closing command performs when [n] events are past: nothing
    once [quit] is set. *)
Definition closing_events (e : LabJackerSeq.Env) (n : nat) (msg : string)
    : list LabJackerSeq.Event :=
  if LabJackerSeq.stopped e n then [] else command_events e n (closing msg).

(** A request for a parameter and the [d] polls until it is answered. *)
Definition asked (s : LabJackerSeq.Signal) (d : nat) : list LabJackerSeq.Event :=
  LabJackerSeq.emit s :: repeat LabJackerSeq.poll d.

(** How a run of a fresh thread ends, and what it has performed. *)
Definition outcome (e : LabJackerSeq.Env)
    : LabJackerSeq.Flow unit * list LabJackerSeq.Event :=
  (fst (LabJackerSeq.run e LabJackerSeq.init),
   LabJackerSeq.past (snd (LabJackerSeq.run e LabJackerSeq.init))).

(** The run gives up on a parameter: it has performed [before] (requests
    and polls), among which the requests are [requests], then the closing
    command with [msg], and it returns; no step of a sequence is among its
    events. *)
Definition aborts_with (e : LabJackerSeq.Env) (before requests : list LabJackerSeq.Event)
    (msg : string) : Prop :=
  let trace := (before ++ closing_events e (length before) msg)%list in
  outcome e = (LabJackerSeq.Return, trace) /\
  List.filter is_step trace = [] /\
  List.filter is_request trace = requests.

(** The run waits for ever on the request [s], made after [before]. *)
Definition blocks_on (e : LabJackerSeq.Env) (before : list LabJackerSeq.Event)
    (s : LabJackerSeq.Signal) : Prop :=
  outcome e = (LabJackerSeq.Blocked, (before ++ [LabJackerSeq.emit s])%list).

(** The thread once the four parameters are in: the four requests, each
    with its polls, are past and the four answers are stored. *)
Definition gate_passed (d1 : nat) (v1 : string) (d2 : nat) (v2 : string)
    (d3 : nat) (v3 : LabJackerSeq.Reply) (d4 : nat) (v4 : LabJackerSeq.Reply)
    : LabJackerSeq.Thread :=
  LabJackerSeq.mkThread
    (asked LabJackerSeq.set_log_file d1 ++ asked LabJackerSeq.set_sample_name d2
     ++ asked LabJackerSeq.set_seq_int d3 ++ asked LabJackerSeq.set_loop_count d4)%list
    (Some v1) (Some v2) (Some v3) (Some v4) None.

(** A fixed reading of the clock, for the examples. *)
Definition noon : nat -> string := fun _ => "2024-05-01 12:00:00".

(** A status dict with the four valves closed and no reading yet. *)
Definition closed_status : Status :=
  mkStatus None None None None None (Some 1) (Some 1) (Some 1) (Some 1) true.

(** An operator who names the log file at the second poll, presses Stop
    before the next dialog opens, and cancels that dialog (the sample
    name). *)
Definition stop_then_cancel : LabJackerSeq.Env :=
  LabJackerSeq.mkEnv noon (Some 3%nat) closed_status
    (Some (2%nat, "run.csv")) (Some (1%nat, "")) None None.

(** An operator who names the log file and cancels the sample name, and
    never presses Stop. *)
Definition cancel_sample_name : LabJackerSeq.Env :=
  LabJackerSeq.mkEnv noon None closed_status
    (Some (2%nat, "run.csv")) (Some (1%nat, "")) None None.

(** An operator who answers the four dialogs at once (interval 5, two
    loops) and presses Stop while the third step of the first loop is being
    carried out (the eleventh event). *)
Definition stop_in_third_step : LabJackerSeq.Env :=
  LabJackerSeq.mkEnv noon (Some 11%nat) closed_status
    (Some (0%nat, "run.csv")) (Some (0%nat, "s1"))
    (Some (0%nat, LabJackerSeq.number 5)) (Some (0%nat, LabJackerSeq.number 2)).

(** The same operator, who never presses Stop. *)
Definition never_stopped : LabJackerSeq.Env :=
  LabJackerSeq.mkEnv noon None closed_status
    (Some (0%nat, "run.csv")) (Some (0%nat, "s1"))
    (Some (0%nat, LabJackerSeq.number 5)) (Some (0%nat, LabJackerSeq.number 2)).

(** The thread of that run when its first loop has been announced. *)
Definition first_loop_announced : LabJackerSeq.Thread :=
  LabJackerSeq.mkThread
    [ LabJackerSeq.emit LabJackerSeq.set_log_file;
      LabJackerSeq.emit LabJackerSeq.set_sample_name;
      LabJackerSeq.emit LabJackerSeq.set_seq_int;
      LabJackerSeq.emit LabJackerSeq.set_loop_count;
      LabJackerSeq.emit
        (LabJackerSeq.log_msg "2024-05-01 12:00:00 : starting sequence loop 1 of 2") ]
    (Some "run.csv") (Some "s1")
    (Some (LabJackerSeq.number 5)) (Some (LabJackerSeq.number 2))
    (Some (LabJackerSeq.sequence 5)).

(** That thread when the first three steps of the sequence are past. *)
Definition third_step_done : LabJackerSeq.Thread :=
  LabJackerSeq.mkThread
    [ LabJackerSeq.emit LabJackerSeq.set_log_file;
      LabJackerSeq.emit LabJackerSeq.set_sample_name;
      LabJackerSeq.emit LabJackerSeq.set_seq_int;
      LabJackerSeq.emit LabJackerSeq.set_loop_count;
      LabJackerSeq.emit
        (LabJackerSeq.log_msg "2024-05-01 12:00:00 : starting sequence loop 1 of 2");
      LabJackerSeq.emit
        (LabJackerSeq.log_msg "2024-05-01 12:00:00 : sequence starting ...");
      LabJackerSeq.emit (LabJackerSeq.log_state "2024-05-01 12:00:00");
      LabJackerSeq.sleep 0;
      LabJackerSeq.emit (LabJackerSeq.log_msg "2024-05-01 12:00:00 : opening valve 2");
      LabJackerSeq.emit (LabJackerSeq.toggle_fio 5);
      LabJackerSeq.emit (LabJackerSeq.log_msg "2024-05-01 12:00:00 : opening valve 3");
      LabJackerSeq.emit (LabJackerSeq.toggle_fio 6) ]
    (Some "run.csv") (Some "s1")
    (Some (LabJackerSeq.number 5)) (Some (LabJackerSeq.number 2))
    (Some (LabJackerSeq.sequence 5)).

(** The line [run_loop] logs for the loop of index [i] out of [n], when [k]
    events are past. *)
Definition loop_line (e : LabJackerSeq.Env) (k : nat) (i n : Z) : string :=
  LabJackerSeq.clock e k ++ " : starting sequence loop " ++ str_int (i + 1)
  ++ " of " ++ str_int n.

(** The object a method leaves, whether it returned or raised. *)
Definition final (o : LabJackerUI.Outcome) : LabJackerUI.UI :=
  match o with
  | LabJackerUI.Ok ui => ui
  | LabJackerUI.Raised ui => ui
  end.

(** The default calibration formula. *)
Definition default_formula : string := "(5.0221 * v) - 24.036".

(** The log file is missing or empty: the condition [log_state] tests
    before it writes the header. *)
Definition fresh (path : string) (files : gmap string string) : bool :=
  match files !! path with
  | None => true
  | Some content => String.eqb content ""
  end.

(** The data record of one call of [log_state]; nothing when a valve state
    has no label and the call raises. *)
Definition row (float_str : float -> string) (timestamp : string)
    (ui : LabJackerUI.UI) : string :=
  match LabJackerUI.log_fields float_str timestamp ui with
  | Some fields => LabJackerUI.log_msg fields
  | None => ""
  end.

(** Calls of [log_state], each with its timestamp and the status dict as it
    is at that moment, until one raises. *)
Definition log_states (float_str : float -> string)
    (calls : list (string * Status)) (ui : LabJackerUI.UI) : LabJackerUI.Outcome :=
  LabJackerUI.run_calls
    (fun call ui =>
       LabJackerUI.log_state float_str (fst call) (LabJackerUI.with_status (snd call) ui))
    calls ui.

(** The data records those calls write. *)
Fixpoint rows (float_str : float -> string) (calls : list (string * Status))
    (ui : LabJackerUI.UI) : string :=
  match calls with
  | [] => ""
  | call :: rest =>
      match LabJackerUI.log_fields float_str (fst call)
              (LabJackerUI.with_status (snd call) ui) with
      | Some fields => LabJackerUI.log_msg fields ++ rows float_str rest ui
      | None => ""
      end
  end.

(** The text of a [float] in the examples, whose status dicts hold none. *)
Definition no_float : float -> string := fun _ => "".

(** A UI with the device connected, the valves closed, no reading yet, the
    log file chosen and not yet there. *)
Definition ui_at_start (sample : string) : LabJackerUI.UI :=
  LabJackerUI.mkUI LabJackerUI.calibration_default (Some u3.new) closed_status
    (Some "run.csv") sample ∅.

(** Both analog inputs read 2.5 V. *)
Definition both_2_5 : Z -> option float := fun _ => Some 2.5%float.

(** The inputs read 1 V and 2 V. *)
Definition reads_1_and_2 : Z -> option float :=
  fun ain_id => if ain_id =? 0 then Some 1%float else Some 2%float.

(** The fields of a data record: the line without its line feed, split at
    the commas. *)
Definition fields_of (record : string) : list string :=
  match split_on LF record with
  | line :: _ => split_on ","%char line
  | [] => []
  end.

(** A calibration file with the formula [p = (2 * v) + 1]. *)
Definition two_v_plus_one : ConfigFile := Text ("p = (2 * v) + 1" ++ String LF "").

(** A UI whose calibration formula divides by [v - 1]. *)
Definition ui_dividing : LabJackerUI.UI :=
  LabJackerUI.new (Text ("p = 1 / (v - 1)" ++ String LF "")) (Some u3.new) ∅.

(** A device whose valve 2 (FIO 5) is open. *)
Definition valve_2_open : u3.U3 := u3.setFIOState u3.new 5 0.

(** A valve command of a sequence toggles one of the ports 4..7; the other
    commands of a sequence are sleeps. *)
Definition valve_or_sleep (command : LabJackerSeq.Command) : bool :=
  match fst (fst command) with
  | LabJackerSeq.toggle_fio_emit fio_id => bool_decide (is_Some (fio_of_id fio_id))
  | LabJackerSeq.time_sleep _ => true
  | LabJackerSeq.toggle_run_emit _ => false
  end.



(** The state a toggle writes over the state [s]. *)
Definition flipped (s : Z) : Z := if negb (s =? 0) then 0 else 1.

(** How many commands of a list toggle the port [fio_id]. *)
Fixpoint toggles (commands : list LabJackerSeq.Command) (fio_id : Z) : nat :=
  match commands with
  | [] => 0
  | (LabJackerSeq.toggle_fio_emit i, _, _) :: rest =>
      ((if (i =? fio_id)%Z then 1 else 0) + toggles rest fio_id)%nat
  | _ :: rest => toggles rest fio_id
  end.

(** The port of a FIO key. *)
Definition port (k : fio) : Z :=
  match k with
  | fio4 => 4
  | fio5 => 5
  | fio6 => 6
  | fio7 => 7
  end.

(** The valve entries of the status dict are the states of the ports of
    the device. *)
Definition mirrors (st : Status) (d : u3.U3) : Prop :=
  forall k, status_fio st k = u3.getFIOState d (port k).

(** The ports 4..7 of a device hold 0 or 1. *)
Definition two_valued (d : u3.U3) : Prop :=
  forall k, u3.getFIOState d (port k) = Some 0 \/ u3.getFIOState d (port k) = Some 1.





(** The four requests, each with its polls. *)
Definition requests (d1 d2 d3 d4 : nat) : list LabJackerSeq.Event :=
  (asked LabJackerSeq.set_log_file d1 ++ asked LabJackerSeq.set_sample_name d2
   ++ asked LabJackerSeq.set_seq_int d3 ++ asked LabJackerSeq.set_loop_count d4)%list.


(** * The sequence thread *)

Import LabJackerSeq.

(** ** The step list (C1) *)

(** C1, as stated, fails: for the interval 5 the list [set_sequence] builds
    has neither 17 entries nor 5 flagged ones. *)
Lemma sequence_not_17_and_5 :
  length (sequence 5) <> 17%nat /\ length (List.filter flagged (sequence 5)) <> 5%nat.
Proof. split; vm_compute; discriminate. Qed.

(** C1, amended: for every step interval, the list [set_sequence] builds has
    exactly 18 entries, of which exactly 6 are flagged to log the state; the
    kinds of the commands and the flags come in one fixed order whatever the
    interval, and [set_sequence] stores this list in [self.seq]. *)
Theorem sequence_18_entries_6_flagged (seq_int : Z) (t : Thread) :
  length (sequence seq_int) = 18%nat /\
  length (List.filter flagged (sequence seq_int)) = 6%nat /\
  map outline (sequence seq_int) =
    [ (None, true); (Some 5, false); (Some 6, false); (Some 7, false);
      (None, false); (Some 5, true); (Some 7, false); (Some 4, false);
      (None, false); (Some 4, true); (None, false); (Some 5, true);
      (None, false); (Some 7, true); (None, false); (Some 5, true);
      (Some 6, false); (Some 7, false) ] /\
  set_sequence (store_seq_int (number seq_int) t) =
    (Value tt, mkThread (past t) (log_file t) (sample_name t)
                 (Some (number seq_int)) (loop_count t) (Some (sequence seq_int))).
Proof. repeat split. Qed.

(** ** Small steps of the thread *)

Lemma extend_nil t : extend t [] = t.
Proof. destruct t; unfold extend; simpl. now rewrite app_nil_r. Qed.

Lemma extend_extend t l1 l2 : extend (extend t l1) l2 = extend t (l1 ++ l2).
Proof. unfold extend; simpl. now rewrite app_assoc. Qed.

Lemma past_extend t l : past (extend t l) = (past t ++ l)%list.
Proof. reflexivity. Qed.

Lemma length_extend t l :
  length (past (extend t l)) = (length (past t) + length l)%nat.
Proof. simpl. apply length_app. Qed.

Lemma perform_extend ev t : perform ev t = (Value tt, extend t [ev]).
Proof. reflexivity. Qed.

Lemma polls_extend n t : polls n t = (Value tt, extend t (repeat poll n)).
Proof.
  revert t; induction n as [|n IH]; intros t; simpl.
  - now rewrite extend_nil.
  - unfold bind. rewrite perform_extend, IH, extend_extend. reflexivity.
Qed.

(** ** The precondition check (C2) *)

Lemma closed_iff_not_differs (x : option Z) :
  bool_decide (x = Some 1) = negb (differs 1 x).
Proof.
  destruct x as [c|]; unfold differs.
  - rewrite negb_involutive. destruct (Z.eqb_spec 1 c) as [<-|Hne].
    + now rewrite bool_decide_eq_true_2.
    + rewrite bool_decide_eq_false_2; [reflexivity|]. intros [= ->]. now apply Hne.
  - now rewrite bool_decide_eq_false_2.
Qed.

Lemma display_state_error_extend t :
  display_state_error t = (Value tt, extend t [emit (display_alert alert_text)]).
Proof. reflexivity. Qed.

Lemma check_from_spec e conds t :
  check_from e conds t =
    if forallb (fun c => negb (differs (snd c) (status_fio (status e) (fst c)))) conds
    then (Value true, t)
    else (Value false, extend t (mismatch_events e (length (past t)))).
Proof.
  induction conds as [|[i r] conds IH]; simpl; [reflexivity|].
  destruct (differs r (status_fio (status e) i)); simpl; [|exact IH].
  unfold bind. rewrite perform_extend, display_state_error_extend.
  unfold get_timestamp. rewrite perform_extend. unfold ret.
  rewrite !extend_extend, !length_extend. reflexivity.
Qed.

Lemma all_closed_forallb e :
  all_closed (status e) =
    forallb (fun c => negb (differs (snd c) (status_fio (status e) (fst c)))) init_cond.
Proof. unfold all_closed; simpl. now rewrite !closed_iff_not_differs. Qed.

(** C2: [check_init_state] returns [True] exactly when all four valve
    entries of the status dict hold 1 (Closed), and then performs nothing.
    Otherwise it returns [False] after [toggle_run], exactly one alert, which
    lists the required state of each valve by its label, and exactly one log
    line; [run] then ends at once, with nothing more performed. *)
Theorem check_init_state_iff_all_closed (e : Env) (t : Thread) :
  (all_closed (status e) = true <->
     st_fio4 (status e) = Some 1 /\ st_fio5 (status e) = Some 1 /\
     st_fio6 (status e) = Some 1 /\ st_fio7 (status e) = Some 1) /\
  (fst (check_init_state e t) = Value true <-> all_closed (status e) = true) /\
  check_init_state e t =
    (if all_closed (status e) then (Value true, t)
     else (Value false, extend t (mismatch_events e (length (past t))))) /\
  (if all_closed (status e) then True
   else run e t = (Value tt, extend t (mismatch_events e (length (past t))))) /\
  alerts (mismatch_events e (length (past t))) = [alert_text] /\
  log_lines (mismatch_events e (length (past t))) =
    [clock e (length (past t) + 2)
     ++ " : valve states do not match required initial state"].
Proof.
  assert (Hck : check_init_state e t =
    (if all_closed (status e) then (Value true, t)
     else (Value false, extend t (mismatch_events e (length (past t)))))).
  { unfold check_init_state. rewrite check_from_spec, <- all_closed_forallb. reflexivity. }
  split; [|split; [|split; [exact Hck|split; [|split; reflexivity]]]].
  - unfold all_closed; simpl. rewrite !andb_true_iff, !bool_decide_eq_true.
    tauto.
  - rewrite Hck. destruct (all_closed (status e)); simpl; split; congruence.
  - destruct (all_closed (status e)) eqn:Hc; [exact I|].
    unfold run, bind. rewrite Hck. reflexivity.
Qed.

(** ** Commands *)

Lemma run_command_stopped e command t :
  stopped e (length (past t)) = true -> run_command e command t = (Value tt, t).
Proof.
  intros H. unfold run_command, bind, quit. rewrite H. reflexivity.
Qed.

Lemma run_command_carried_out e command t :
  stopped e (length (past t)) = false ->
  run_command e command t =
    (if raises (fst (fst command)) then Raised else Value tt,
     extend t (command_events e (length (past t)) command)).
Proof.
  intros H. destruct command as [[c msg] flag].
  unfold run_command, bind, quit, get_timestamp. rewrite H.
  cbn [negb]. cbv beta iota. rewrite perform_extend.
  unfold command_events, announce. cbn [fst snd].
  assert (Heval : forall t', eval c t' =
            (if raises c then Raised else Value tt, extend t' (effect c))).
  { intros t'. destruct c as [secs| |]; cbn [eval raises effect];
      [destruct (secs <? 0); [unfold raise; now rewrite extend_nil|]| |];
      apply perform_extend. }
  destruct flag.
  - rewrite perform_extend, Heval, !extend_extend. reflexivity.
  - unfold ret. rewrite Heval, !extend_extend. reflexivity.
Qed.

Lemma closing_spec e msg t :
  run_command e (closing msg) t =
    (Value tt, extend t (closing_events e (length (past t)) msg)).
Proof.
  unfold closing_events. destruct (stopped e (length (past t))) eqn:H.
  - rewrite run_command_stopped by exact H. now rewrite extend_nil.
  - rewrite run_command_carried_out by exact H. reflexivity.
Qed.

Lemma for_each_app {A} (l1 l2 : list A) (body : A -> M unit) t :
  for_each (l1 ++ l2) body t =
    match for_each l1 body t with
    | (Value _, t') => for_each l2 body t'
    | other => other
    end.
Proof.
  revert t; induction l1 as [|x l1 IH]; intros t; simpl; [reflexivity|].
  unfold bind. destruct (body x t) as [[[]| | |] t']; try reflexivity. apply IH.
Qed.

Lemma for_each_stopped e commands t :
  stopped e (length (past t)) = true ->
  for_each commands (run_command e) t = (Value tt, t).
Proof.
  intros H. induction commands as [|c commands IH]; simpl; [reflexivity|].
  unfold bind. rewrite run_command_stopped by exact H. exact IH.
Qed.

Lemma run_loop_stopped e n commands i t :
  stopped e (length (past t)) = true -> run_loop e n commands i t = (Value tt, t).
Proof.
  intros H. unfold run_loop, bind, quit. rewrite H. reflexivity.
Qed.

Lemma loops_stopped e n commands later t :
  stopped e (length (past t)) = true ->
  for_each later (run_loop e n commands) t = (Value tt, t).
Proof.
  intros H. induction later as [|i later IH]; simpl; [reflexivity|].
  unfold bind. rewrite run_loop_stopped by exact H. exact IH.
Qed.

(** ** The parameter blocks of [run] (C3) *)

Lemma await_answered {A} (field : Thread -> option A) (d : nat) (a : A)
    (store : A -> Thread -> Thread) t :
  field t = None ->
  await field (Some (d, a)) store t = (Value tt, store a (extend t (repeat poll d))).
Proof.
  intros H. unfold await, bind, get. rewrite H, polls_extend. reflexivity.
Qed.

Lemma await_unanswered {A} (field : Thread -> option A)
    (store : A -> Thread -> Thread) t :
  field t = None -> await field None store t = (Blocked, t).
Proof. intros H. unfold await, bind, get. now rewrite H. Qed.

(** One block of [run]: the request, the wait, and the closing command when
    the answer is false; [k] is the rest of [run]. *)
Lemma gate_block {A} (e : Env) (s : Signal) (field : Thread -> option A)
    (answer : option (nat * A)) (store : A -> Thread -> Thread)
    (truthy : A -> bool) (msg : string) (k : M unit) (t : Thread) :
  field t = None ->
  (forall a t', field (store a t') = Some a) ->
  (forall a t', past (store a t') = past t') ->
  (forall l t', field (extend t' l) = field t') ->
  (forall a l t', extend (store a t') l = store a (extend t' l)) ->
  (perform (emit s) ;; await field answer store ;; v <- get field ;;
   (if falsy truthy v
    then run_command e (toggle_run_emit true, msg, false) ;; exit
    else ret tt) ;; k) t =
  match answer with
  | None => (Blocked, extend t [emit s])
  | Some (d, a) =>
      if truthy a then k (store a (extend t (asked s d)))
      else (Return,
            store a (extend t (asked s d ++
                       closing_events e (length (past t ++ asked s d)) msg)))
  end.
Proof.
  intros Hnone Hget Hpast Hext Hcomm.
  unfold bind at 1. rewrite perform_extend.
  destruct answer as [[d a]|].
  - unfold bind at 1. rewrite await_answered by (now rewrite Hext).
    rewrite extend_extend. change ([emit s] ++ repeat poll d)%list with (asked s d).
    unfold bind at 1. unfold get. rewrite Hget. unfold falsy.
    destruct (truthy a); cbn [negb].
    + reflexivity.
    + unfold bind. fold (closing msg). rewrite closing_spec.
      unfold exit. rewrite Hpast, Hcomm, extend_extend. reflexivity.
  - unfold bind at 1. rewrite await_unanswered by (now rewrite Hext). reflexivity.
Qed.

Lemma filter_repeat_poll (f : Event -> bool) d :
  f poll = false -> List.filter f (repeat poll d) = [].
Proof. intros H. induction d as [|d IH]; simpl; [reflexivity|]. now rewrite H. Qed.

Lemma steps_of_asked s d :
  is_step (emit s) = false -> List.filter is_step (asked s d) = [].
Proof.
  intros H. unfold asked. cbn [List.filter]. rewrite H.
  now apply filter_repeat_poll.
Qed.

Lemma requests_of_asked s d :
  is_request (emit s) = true -> List.filter is_request (asked s d) = [emit s].
Proof.
  intros H. unfold asked. cbn [List.filter]. rewrite H.
  now rewrite filter_repeat_poll.
Qed.

Lemma steps_of_closing e n msg : List.filter is_step (closing_events e n msg) = [].
Proof. unfold closing_events. now destruct (stopped e n). Qed.

Lemma requests_of_closing e n msg : List.filter is_request (closing_events e n msg) = [].
Proof. unfold closing_events. now destruct (stopped e n). Qed.

Lemma check_init_state_eq e t :
  check_init_state e t =
    (if all_closed (status e) then (Value true, t)
     else (Value false, extend t (mismatch_events e (length (past t))))).
Proof.
  unfold check_init_state. rewrite check_from_spec, <- all_closed_forallb. reflexivity.
Qed.

Ltac gate_step :=
  rewrite gate_block by reflexivity.

Ltac abort_facts :=
  unfold aborts_with, outcome; cbv zeta;
  split; [|split;
  [ rewrite !List.filter_app, ?steps_of_asked, ?steps_of_closing by reflexivity;
    reflexivity
  | rewrite !List.filter_app, ?requests_of_closing;
    rewrite !requests_of_asked by reflexivity; reflexivity ]].

Ltac simpl_thread :=
  cbn [fst snd past store_loop_count store_seq_int store_sample_name
       store_log_file extend init app];
  rewrite <- ?app_assoc.

Ltac blocked Hrun H :=
  unfold blocks_on, outcome; rewrite Hrun; rewrite gate_block by reflexivity;
  rewrite H; simpl_thread; reflexivity.

Ltac aborted Hrun :=
  abort_facts; rewrite Hrun; simpl_thread; reflexivity.


Lemma run_closed e :
  all_closed (status e) = true ->
  run e init =
    (perform (emit set_log_file) ;;
     await log_file (ans_log_file e) store_log_file ;;
     v <- get log_file ;;
     (if falsy truthy_str v
      then run_command e (toggle_run_emit true,
                          "no output file specified. not starting", false) ;; exit
      else ret tt) ;;
     perform (emit set_sample_name) ;;
     await sample_name (ans_sample_name e) store_sample_name ;;
     v <- get sample_name ;;
     (if falsy truthy_str v
      then run_command e (toggle_run_emit true,
                          "no sample name specified. not starting", false) ;; exit
      else ret tt) ;;
     perform (emit set_seq_int) ;;
     await seq_int (ans_seq_int e) store_seq_int ;;
     v <- get seq_int ;;
     (if falsy truthy_reply v
      then run_command e (toggle_run_emit true,
                          "no time step interval specified. not starting", false) ;; exit
      else ret tt) ;;
     perform (emit set_loop_count) ;;
     await loop_count (ans_loop_count e) store_loop_count ;;
     v <- get loop_count ;;
     (if falsy truthy_reply v
      then run_command e (toggle_run_emit true,
                          "no loop count specified. not starting", false) ;; exit
      else ret tt) ;;
     run_sequence e) init.
Proof.
  intros H. unfold run. unfold bind at 1. rewrite check_init_state_eq, H. reflexivity.
Qed.

(** C3, as stated, fails: the operator names the log file, presses Stop
    before the next dialog opens and cancels that dialog; the run returns
    and has logged no message at all, the closing command being skipped
    because [quit] is set. *)
Lemma cancelled_parameter_without_message :
  all_closed (status stop_then_cancel) = true /\
  fst (outcome stop_then_cancel) = Return /\
  log_lines (snd (outcome stop_then_cancel)) = [].
Proof. repeat split. Qed.

(** C3, amended: once the precondition check has passed, the run requests
    log file, sample name, step interval and loop count in this order, and
    waits on each request until its field is set (for ever when it never
    is).  At the first answer that is empty or zero the run performs the
    closing command with that parameter's message and returns: it has made
    no later request and no step of a sequence.  The closing command logs
    the message (and emits [toggle_run]) when [quit] is not set at that
    moment, and is skipped when it is.  With four true answers the run goes
    on to the sequence. *)
Theorem parameter_gate (e : Env) (Hclosed : all_closed (status e) = true) :
  (ans_log_file e = None -> blocks_on e [] set_log_file) /\
  (forall d1 v1, ans_log_file e = Some (d1, v1) ->
   (truthy_str v1 = false ->
    aborts_with e (asked set_log_file d1) [emit set_log_file]
      "no output file specified. not starting") /\
   (truthy_str v1 = true ->
    (ans_sample_name e = None -> blocks_on e (asked set_log_file d1) set_sample_name) /\
    (forall d2 v2, ans_sample_name e = Some (d2, v2) ->
     (truthy_str v2 = false ->
      aborts_with e (asked set_log_file d1 ++ asked set_sample_name d2)
        [emit set_log_file; emit set_sample_name]
        "no sample name specified. not starting") /\
     (truthy_str v2 = true ->
      (ans_seq_int e = None ->
       blocks_on e (asked set_log_file d1 ++ asked set_sample_name d2) set_seq_int) /\
      (forall d3 v3, ans_seq_int e = Some (d3, v3) ->
       (truthy_reply v3 = false ->
        aborts_with e
          (asked set_log_file d1 ++ asked set_sample_name d2 ++ asked set_seq_int d3)
          [emit set_log_file; emit set_sample_name; emit set_seq_int]
          "no time step interval specified. not starting") /\
       (truthy_reply v3 = true ->
        (ans_loop_count e = None ->
         blocks_on e
           (asked set_log_file d1 ++ asked set_sample_name d2 ++ asked set_seq_int d3)
           set_loop_count) /\
        (forall d4 v4, ans_loop_count e = Some (d4, v4) ->
         (truthy_reply v4 = false ->
          aborts_with e
            (asked set_log_file d1 ++ asked set_sample_name d2
             ++ asked set_seq_int d3 ++ asked set_loop_count d4)
            [emit set_log_file; emit set_sample_name; emit set_seq_int;
             emit set_loop_count]
            "no loop count specified. not starting") /\
         (truthy_reply v4 = true ->
          run e init = run_sequence e (gate_passed d1 v1 d2 v2 d3 v3 d4 v4))))))))).
Proof.
  pose proof (run_closed e Hclosed) as Hrun.
  split; [intros H1; blocked Hrun H1|].
  intros d1 v1 H1. rewrite gate_block in Hrun by reflexivity. rewrite H1 in Hrun.
  split; [intros T1; rewrite T1 in Hrun; aborted Hrun|].
  intros T1. rewrite T1 in Hrun.
  split; [intros H2; blocked Hrun H2|].
  intros d2 v2 H2. rewrite gate_block in Hrun by reflexivity. rewrite H2 in Hrun.
  split; [intros T2; rewrite T2 in Hrun; aborted Hrun|].
  intros T2. rewrite T2 in Hrun.
  split; [intros H3; blocked Hrun H3|].
  intros d3 v3 H3. rewrite gate_block in Hrun by reflexivity. rewrite H3 in Hrun.
  split; [intros T3; rewrite T3 in Hrun; aborted Hrun|].
  intros T3. rewrite T3 in Hrun.
  split; [intros H4; blocked Hrun H4|].
  intros d4 v4 H4. rewrite gate_block in Hrun by reflexivity. rewrite H4 in Hrun.
  split; [intros T4; rewrite T4 in Hrun; aborted Hrun|].
  intros T4. rewrite T4 in Hrun. rewrite Hrun. f_equal.
  unfold gate_passed, store_loop_count, store_seq_int, store_sample_name,
    store_log_file, extend, init.
  cbn [past app log_file sample_name seq_int loop_count seq].
  rewrite <- ?app_assoc. reflexivity.
Qed.


(** A run that stops on the cancelled sample name, with [quit] unset: the
    message is logged. *)
Lemma parameter_gate_witness :
  all_closed (status cancel_sample_name) = true /\
  aborts_with cancel_sample_name
    (asked set_log_file 2 ++ asked set_sample_name 1)
    [emit set_log_file; emit set_sample_name]
    "no sample name specified. not starting".
Proof.
  split; [reflexivity|].
  exact (proj1 (proj2 (proj2 (proj2 (parameter_gate cancel_sample_name eq_refl)
                                2%nat "run.csv" eq_refl) eq_refl)
                  1%nat "" eq_refl) eq_refl).
Defined.

(** ** Cancellation (C4) *)

Lemma run_loop_started e n commands i t :
  stopped e (length (past t)) = false ->
  run_loop e n commands i t =
    for_each commands (run_command e)
      (extend t [emit (log_msg (loop_line e (length (past t)) i n))]).
Proof.
  intros H. unfold run_loop, bind, quit, get_timestamp. rewrite H.
  cbn [negb]. cbv beta iota. rewrite perform_extend. reflexivity.
Qed.

(** C4: when [quit] is set by the time step k of an iteration is over (the
    commands [pre] are the steps up to k, and [quit] reads true once they are
    past), no later step of the iteration is carried out, and no further
    iteration begins: the rest of the step list and all the remaining loops
    leave the thread as it was after step k.  [quit] is read before every
    step and before every iteration, and nowhere else: a step whose check
    has passed is carried out whole, with all its events, whatever happens
    to [quit] meanwhile, and so is the announcement of an iteration. *)
Theorem cancel_between_steps (e : Env) (n : Z) (pre post : list Command)
    (later : list Z) (t t_k : Thread)
    (Hpre : for_each pre (run_command e) t = (Value tt, t_k))
    (Hquit : stopped e (length (past t_k)) = true) :
  for_each (pre ++ post) (run_command e) t = (Value tt, t_k) /\
  for_each later (run_loop e n (pre ++ post)) t_k = (Value tt, t_k) /\
  (forall command t0,
     run_command e command t0 =
       if stopped e (length (past t0)) then (Value tt, t0)
       else (if raises (fst (fst command)) then Raised else Value tt,
             extend t0 (command_events e (length (past t0)) command))) /\
  (forall commands i t0,
     run_loop e n commands i t0 =
       if stopped e (length (past t0)) then (Value tt, t0)
       else for_each commands (run_command e)
              (extend t0 [emit (log_msg (loop_line e (length (past t0)) i n))])).
Proof.
  split; [|split; [|split]].
  - rewrite for_each_app, Hpre. now apply for_each_stopped.
  - now apply loops_stopped.
  - intros command t0. destruct (stopped e (length (past t0))) eqn:H.
    + now apply run_command_stopped.
    + now apply run_command_carried_out.
  - intros commands i t0. destruct (stopped e (length (past t0))) eqn:H.
    + now apply run_loop_stopped.
    + now apply run_loop_started.
Qed.

(** Stop pressed during the third step of the first loop: the step is
    carried out, the fifteen steps after it and the second loop are not. *)
Lemma cancel_between_steps_witness :
  for_each (firstn 3 (sequence 5)) (run_command stop_in_third_step)
    first_loop_announced = (Value tt, third_step_done) /\
  stopped stop_in_third_step (length (past third_step_done)) = true /\
  for_each (firstn 3 (sequence 5) ++ skipn 3 (sequence 5))
    (run_command stop_in_third_step) first_loop_announced
    = (Value tt, third_step_done) /\
  for_each [1] (run_loop stop_in_third_step 2
                  (firstn 3 (sequence 5) ++ skipn 3 (sequence 5))) third_step_done
    = (Value tt, third_step_done).
Proof.
  assert (Hpre : for_each (firstn 3 (sequence 5)) (run_command stop_in_third_step)
                   first_loop_announced = (Value tt, third_step_done))
    by (vm_compute; reflexivity).
  assert (Hquit : stopped stop_in_third_step (length (past third_step_done)) = true)
    by (vm_compute; reflexivity).
  split; [exact Hpre|]. split; [exact Hquit|].
  pose proof (cancel_between_steps stop_in_third_step 2
                (firstn 3 (sequence 5)) (skipn 3 (sequence 5)) [1]
                first_loop_announced third_step_done Hpre Hquit) as H.
  exact (conj (proj1 H) (proj1 (proj2 H))).
Defined.

Lemma run_gate_passed e d1 v1 d2 v2 d3 v3 d4 v4 :
  all_closed (status e) = true ->
  ans_log_file e = Some (d1, v1) -> truthy_str v1 = true ->
  ans_sample_name e = Some (d2, v2) -> truthy_str v2 = true ->
  ans_seq_int e = Some (d3, v3) -> truthy_reply v3 = true ->
  ans_loop_count e = Some (d4, v4) -> truthy_reply v4 = true ->
  run e init = run_sequence e (gate_passed d1 v1 d2 v2 d3 v3 d4 v4).
Proof.
  intros Hclosed H1 T1 H2 T2 H3 T3 H4 T4.
  rewrite (run_closed e Hclosed).
  rewrite gate_block by reflexivity. rewrite H1, T1.
  rewrite gate_block by reflexivity. rewrite H2, T2.
  rewrite gate_block by reflexivity. rewrite H3, T3.
  rewrite gate_block by reflexivity. rewrite H4, T4.
  f_equal.
  unfold gate_passed, store_loop_count, store_seq_int, store_sample_name,
    store_log_file, extend, init.
  cbn [past app log_file sample_name seq_int loop_count seq].
  rewrite <- ?app_assoc. reflexivity.
Qed.

(** ** The end of a run (C5) *)

(** Commands none of which raises are carried out to the end. *)
Lemma for_each_commands_returns e commands t :
  forallb (fun c : Command => negb (raises (fst (fst c)))) commands = true ->
  exists l, for_each commands (run_command e) t = (Value tt, extend t l).
Proof.
  revert t; induction commands as [|c commands IH]; intros t H; simpl.
  - exists []. unfold ret. now rewrite extend_nil.
  - simpl in H. apply andb_true_iff in H as [Hc H].
    unfold bind. destruct (stopped e (length (past t))) eqn:Hs.
    + rewrite run_command_stopped by exact Hs. now apply IH.
    + rewrite run_command_carried_out by exact Hs.
      apply negb_true_iff in Hc. rewrite Hc.
      destruct (IH (extend t (command_events e (length (past t)) c)) H) as [l Hl].
      rewrite Hl, extend_extend. eauto.
Qed.

Lemma loops_return e n commands later t :
  forallb (fun c : Command => negb (raises (fst (fst c)))) commands = true ->
  exists l, for_each later (run_loop e n commands) t = (Value tt, extend t l).
Proof.
  intros H. revert t; induction later as [|i later IH]; intros t; simpl.
  - exists []. unfold ret. now rewrite extend_nil.
  - unfold bind. destruct (stopped e (length (past t))) eqn:Hs.
    + rewrite run_loop_stopped by exact Hs. apply IH.
    + rewrite run_loop_started by exact Hs.
      destruct (for_each_commands_returns e commands
                  (extend t [emit (log_msg (loop_line e (length (past t)) i n))]) H)
        as [l Hl].
      rewrite Hl, extend_extend.
      destruct (IH (extend t ([emit (log_msg (loop_line e (length (past t)) i n))] ++ l)))
        as [l' Hl'].
      rewrite Hl', extend_extend. eauto.
Qed.

Lemma sequence_never_raises z :
  0 <= z ->
  forallb (fun c : Command => negb (raises (fst (fst c)))) (sequence z) = true.
Proof.
  intros Hz. assert (H : (z <? 0) = false) by now apply Z.ltb_ge.
  cbn. rewrite H. reflexivity.
Qed.

(** C5, as stated, fails: the run below passes the precondition check and
    the four parameters, and ends by cancellation (Stop during the third
    step); its log lines are the loop announcement and three steps, and no
    terminal message. *)
Lemma cancelled_run_logs_no_finished :
  all_closed (status stop_in_third_step) = true /\
  fst (outcome stop_in_third_step) = Value tt /\
  log_lines (snd (outcome stop_in_third_step)) =
    [ "2024-05-01 12:00:00 : starting sequence loop 1 of 2";
      "2024-05-01 12:00:00 : sequence starting ...";
      "2024-05-01 12:00:00 : opening valve 2";
      "2024-05-01 12:00:00 : opening valve 3" ].
Proof. repeat split. Qed.

(** C5, amended: a run that passes the precondition check and the four
    parameters (with a positive step interval) carries out its loops and
    returns; when [quit] is not set at the end of the loops it then logs the
    line "finished" and emits [toggle_run], and when [quit] is set (the run
    was cancelled) it performs nothing more: no terminal message is
    logged. *)
Theorem finished_unless_cancelled (e : Env) (d1 d2 d3 d4 : nat) (v1 v2 : string)
    (z n : Z)
    (Hclosed : all_closed (status e) = true)
    (H1 : ans_log_file e = Some (d1, v1)) (T1 : truthy_str v1 = true)
    (H2 : ans_sample_name e = Some (d2, v2)) (T2 : truthy_str v2 = true)
    (H3 : ans_seq_int e = Some (d3, number z)) (T3 : 0 < z)
    (H4 : ans_loop_count e = Some (d4, number n)) (T4 : n <> 0) :
  exists t1 : Thread,
    (set_sequence ;; for_each (range n) (run_loop e n (sequence z)))
      (gate_passed d1 v1 d2 v2 d3 (number z) d4 (number n)) = (Value tt, t1) /\
    run e init =
      (Value tt,
       if stopped e (length (past t1)) then t1
       else extend t1 [ emit (log_msg (clock e (length (past t1)) ++ " : finished"));
                        emit (toggle_run true) ]) /\
    (stop_after e = None -> stopped e (length (past t1)) = false).
Proof.
  assert (T3' : truthy_reply (number z) = true).
  { cbn. apply negb_true_iff, Z.eqb_neq. lia. }
  assert (T4' : truthy_reply (number n) = true).
  { cbn. now apply negb_true_iff, Z.eqb_neq. }
  pose proof (run_gate_passed e d1 v1 d2 v2 d3 (number z) d4 (number n)
                Hclosed H1 T1 H2 T2 H3 T3' H4 T4') as Hrun.
  pose (tg := gate_passed d1 v1 d2 v2 d3 (number z) d4 (number n)).
  assert (Hset : set_sequence tg =
            (Value tt, mkThread (past tg) (log_file tg) (sample_name tg)
                         (seq_int tg) (loop_count tg) (Some (sequence z))))
    by reflexivity.
  destruct (loops_return e n (sequence z) (range n)
              (mkThread (past tg) (log_file tg) (sample_name tg) (seq_int tg)
                        (loop_count tg) (Some (sequence z))))
    as [l Hl]; [apply sequence_never_raises; lia|].
  eexists. split; [|split].
  - fold tg. unfold bind. rewrite Hset. exact Hl.
  - rewrite Hrun. fold tg. unfold run_sequence. unfold bind at 1. rewrite Hset.
    unfold bind at 1. unfold get at 1. cbn [loop_count tg gate_passed].
    unfold bind at 1. unfold get at 1. cbn [seq].
    unfold bind at 1. cbn [past log_file sample_name seq_int loop_count tg gate_passed] in Hl.
    cbn [past log_file sample_name seq_int loop_count tg gate_passed].
    rewrite Hl.
    fold (closing "finished"). rewrite closing_spec. unfold closing_events.
    destruct (stopped e _); [now rewrite extend_nil|reflexivity].
  - intros Hs. unfold stopped. now rewrite Hs.
Qed.

(** The run that is never stopped: interval 5, two loops. *)
Lemma finished_unless_cancelled_witness :
  exists t1 : Thread,
    (set_sequence ;; for_each (range 2) (run_loop never_stopped 2 (sequence 5)))
      (gate_passed 0 "run.csv" 0 "s1" 0 (number 5) 0 (number 2)) = (Value tt, t1) /\
    run never_stopped init =
      (Value tt,
       if stopped never_stopped (length (past t1)) then t1
       else extend t1 [ emit (log_msg (clock never_stopped (length (past t1))
                                       ++ " : finished"));
                        emit (toggle_run true) ]) /\
    (stop_after never_stopped = None -> stopped never_stopped (length (past t1)) = false).
Proof.
  apply (finished_unless_cancelled never_stopped 0 0 0 0 "run.csv" "s1" 5 2);
    try reflexivity; lia.
Defined.


(** * The UI object: status, log and calibration *)

Import LabJackerUI.

(** ** Strings *)

Lemma str_app_cons (x : ascii) (a b : string) : String x a ++ b = String x (a ++ b).
Proof. reflexivity. Qed.

Lemma str_app_assoc (a b c : string) : (a ++ b) ++ c = a ++ (b ++ c).
Proof.
  induction a as [|x a IH]; [reflexivity|]. now rewrite !str_app_cons, IH.
Qed.

Lemma str_app_nil_r (a : string) : a ++ "" = a.
Proof.
  induction a as [|x a IH]; [reflexivity|]. now rewrite str_app_cons, IH.
Qed.

Lemma str_length_app (a b : string) :
  String.length (a ++ b) = (String.length a + String.length b)%nat.
Proof.
  induction a as [|x a IH]; [reflexivity|].
  rewrite str_app_cons. cbn [String.length]. now rewrite IH.
Qed.

Lemma str_eqb_nil (a : string) : String.eqb a "" = true <-> a = "".
Proof. apply String.eqb_eq. Qed.

(** ** The analog poll (C6) *)

(** What [update_ain] stores for the two inputs and their difference: each
    input is the device's answer, [None] when the read raises or no device
    is connected; the difference is [ain1 - ain0] when both are there and
    [None] otherwise. *)
Lemma update_ain_voltages eval getAIN ui :
  let read ain_id := match dev ui with Some _ => getAIN ain_id | None => None end in
  let st' := status (final (update_ain eval getAIN ui)) in
  ain0 st' = read 0 /\ ain1 st' = read 1 /\
  vd st' = match read 1, read 0 with
           | Some a1, Some a0 => Some (a1 - a0)%float
           | _, _ => None
           end.
Proof.
  cbv zeta. unfold update_ain.
  destruct (dev ui) as [d|]; [|repeat split].
  destruct (getAIN 1) as [a1|], (getAIN 0) as [a0|]; cbn [ain0 ain1 set_ain0 set_ain1];
    try (repeat split; fail).
  destruct (truthy_float (Some (a1 - a0)%float)); [|repeat split].
  destruct (calibration ui !! "pres" ≫= _); [repeat split|].
  destruct (calibration_default !! "pres"); [|repeat split].
  destruct (eval _ _); repeat split.
Qed.

(** The pressure [update_ain] stores when the difference is there and not
    zero, and the formula evaluates. *)
Lemma update_ain_pressure eval getAIN ui d a0 a1 src p :
  dev ui = Some d -> getAIN 0 = Some a0 -> getAIN 1 = Some a1 ->
  PrimFloat.eqb (a1 - a0) 0 = false ->
  calibration ui !! "pres" = Some src -> eval src (a1 - a0)%float = Some p ->
  exists ui', update_ain eval getAIN ui = Ok ui' /\
              calibration ui' = calibration ui /\
              vd (status ui') = Some (a1 - a0)%float /\
              pres (status ui') = Some p.
Proof.
  intros Hd H0 H1 Hnz Hsrc Hp. unfold update_ain.
  rewrite Hd, H0, H1. cbn [ain0 ain1 set_ain0 set_ain1].
  unfold truthy_float. rewrite Hnz. cbn [negb].
  rewrite Hsrc. cbn [mbind option_bind]. rewrite Hp.
  eexists. repeat split.
Qed.

(** C6, where the code departs from it: both inputs read 2.5 V, so both
    readings and their difference (0.0) are available, and yet no pressure
    is computed: [None] is stored, because [if v:] takes the difference 0.0
    for a missing value.  The default formula gives -24.036 there. *)
Theorem zero_difference_gives_no_pressure :
  let ui' := final (update_ain py_eval both_2_5 (ui_at_start "s1")) in
  update_ain py_eval both_2_5 (ui_at_start "s1") = Ok ui' /\
  ain0 (status ui') = Some 2.5%float /\
  ain1 (status ui') = Some 2.5%float /\
  vd (status ui') = Some 0%float /\
  pres (status ui') = None /\
  py_eval default_formula 0 = Some (PyFloat (-24.036)%float).
Proof. vm_compute. repeat split. Qed.

(** ** The calibration (C7) *)

Lemma py_eval_default (x : float) :
  py_eval default_formula x = Some (PyFloat (5.0221 * x - 24.036)%float).
Proof.
  unfold py_eval.
  assert (H : parse default_formula =
              Some (Sub (Mul (Num (PyFloat 5.0221%float)) Var)
                        (Num (PyFloat 24.036%float))))
    by (vm_compute; reflexivity).
  rewrite H. reflexivity.
Qed.

Lemma default_pres : calibration_default !! "pres" = Some default_formula.
Proof. reflexivity. Qed.

Lemma lookup_pres_insert (c : gmap string string) (src : string) :
  <["pres" := src]> c !! "pres" = Some src.
Proof. apply lookup_insert_eq. Qed.

(** With the default formula in place a tick returns, leaves it in place,
    and stores its value whenever the difference is there and not zero. *)
Lemma update_ain_with_default eval getAIN ui :
  (forall x, eval default_formula x = Some (PyFloat (5.0221 * x - 24.036)%float)) ->
  calibration ui !! "pres" = Some default_formula ->
  exists ui', update_ain eval getAIN ui = Ok ui' /\
    calibration ui' !! "pres" = Some default_formula /\
    (forall x, vd (status ui') = Some x -> PrimFloat.eqb x 0 = false ->
               pres (status ui') = Some (PyFloat (5.0221 * x - 24.036)%float)).
Proof.
  intros Hdef Hc. unfold update_ain.
  destruct (dev ui) as [d|]; [|eexists; repeat split; [exact Hc|discriminate]].
  destruct (getAIN 1) as [a1|], (getAIN 0) as [a0|];
    cbn [ain0 ain1 set_ain0 set_ain1];
    try (eexists; repeat split; [exact Hc|discriminate]).
  unfold truthy_float. destruct (PrimFloat.eqb (a1 - a0) 0) eqn:Hz; cbn [negb].
  - eexists; repeat split; [exact Hc|]. cbn. intros x [= <-]. congruence.
  - rewrite Hc. cbn [mbind option_bind]. rewrite Hdef.
    eexists; repeat split; [exact Hc|]. cbn. now intros x [= <-].
Qed.

Lemma ticks_with_default eval (ticks : list (Z -> option float)) ui :
  (forall x, eval default_formula x = Some (PyFloat (5.0221 * x - 24.036)%float)) ->
  calibration ui !! "pres" = Some default_formula ->
  exists ui', run_calls (update_ain eval) ticks ui = Ok ui' /\
    calibration ui' !! "pres" = Some default_formula.
Proof.
  intros Hdef. revert ui; induction ticks as [|getAIN ticks IH]; intros ui Hc; simpl.
  - eauto.
  - destruct (update_ain_with_default eval getAIN ui Hdef Hc) as (ui' & -> & Hc' & _).
    now apply IH.
Qed.

(** C7: the calibration file [p = (2 * v) + 1] loads the formula
    [(2 * v) + 1], and a tick whose voltage difference is 3 stores the
    pressure 7.  Whatever [eval] is, as long as the default formula
    evaluates to [(5.0221 * v) - 24.036] (as it does in the arithmetic
    evaluator): when the loaded formula fails to evaluate at a tick, the
    tick returns without an error, stores the value of the default formula,
    and has replaced the loaded formula by the default one, which stays in
    place and is the one evaluated at every later tick. *)
Theorem calibration_example_and_fallback :
  (get_calibration two_v_plus_one = Some {[ "pres" := "(2 * v) + 1" ]} /\
   calibration (new two_v_plus_one (Some u3.new) ∅) !! "pres" = Some "(2 * v) + 1" /\
   forall ui getAIN d a0 a1,
     calibration ui !! "pres" = Some "(2 * v) + 1" ->
     dev ui = Some d -> getAIN 0 = Some a0 -> getAIN 1 = Some a1 ->
     (a1 - a0)%float = 3%float ->
     exists ui', update_ain py_eval getAIN ui = Ok ui' /\
                 pres (status ui') = Some (PyFloat 7%float)) /\
  (forall x, py_eval default_formula x = Some (PyFloat (5.0221 * x - 24.036)%float)) /\
  (forall eval : string -> float -> option pynum,
     (forall x, eval default_formula x = Some (PyFloat (5.0221 * x - 24.036)%float)) ->
     forall ui getAIN d a0 a1,
       dev ui = Some d -> getAIN 0 = Some a0 -> getAIN 1 = Some a1 ->
       PrimFloat.eqb (a1 - a0) 0 = false ->
       calibration ui !! "pres" ≫= (fun src => eval src (a1 - a0)%float) = None ->
       exists ui', update_ain eval getAIN ui = Ok ui' /\
         calibration ui' = <["pres" := default_formula]> (calibration ui) /\
         pres (status ui') = Some (PyFloat (5.0221 * (a1 - a0) - 24.036)%float) /\
         forall ticks : list (Z -> option float),
           exists ui'', run_calls (update_ain eval) ticks ui' = Ok ui'' /\
             calibration ui'' !! "pres" = Some default_formula /\
             forall getAIN', exists ui3,
               update_ain eval getAIN' ui'' = Ok ui3 /\
               calibration ui3 !! "pres" = Some default_formula /\
               forall x, vd (status ui3) = Some x -> PrimFloat.eqb x 0 = false ->
                 pres (status ui3) = Some (PyFloat (5.0221 * x - 24.036)%float)).
Proof.
  split; [|split].
  - split; [vm_compute; reflexivity|]. split; [vm_compute; reflexivity|].
    intros ui getAIN d a0 a1 Hc Hd H0 H1 H3.
    destruct (update_ain_pressure py_eval getAIN ui d a0 a1 "(2 * v) + 1"
                (PyFloat 7%float) Hd H0 H1) as (ui' & Hu & _ & _ & Hp); try assumption.
    + now rewrite H3.
    + rewrite H3. vm_compute. reflexivity.
    + eauto.
  - exact py_eval_default.
  - intros eval Hdef ui getAIN d a0 a1 Hd H0 H1 Hnz Hfail.
    assert (Hu : update_ain eval getAIN ui =
      Ok (with_status
            (set_pres (Some (PyFloat (5.0221 * (a1 - a0) - 24.036)%float))
               (set_vd (Some (a1 - a0)%float)
                  (set_ain1 (Some a1) (set_ain0 (Some a0) (status ui)))))
            (with_calibration (<["pres" := default_formula]> (calibration ui)) ui))).
    { unfold update_ain. rewrite Hd, H0, H1. cbn [ain0 ain1 set_ain0 set_ain1].
      unfold truthy_float. rewrite Hnz. cbn [negb]. rewrite Hfail.
      rewrite default_pres, Hdef. reflexivity. }
    eexists. split; [exact Hu|]. split; [reflexivity|]. split; [reflexivity|].
    intros ticks.
    match goal with
    | |- context [run_calls _ _ ?u] =>
        destruct (ticks_with_default eval ticks u Hdef
                    (lookup_pres_insert (calibration ui) default_formula))
          as (ui'' & Hr & Hc'')
    end.
    exists ui''. split; [exact Hr|]. split; [exact Hc''|].
    intros getAIN'. exact (update_ain_with_default eval getAIN' ui'' Hdef Hc'').
Qed.

(** The formula [1 / (v - 1)] divides by zero when the inputs read 1 V and
    2 V: the pressure is that of the default formula and the default formula
    has taken its place. *)
Lemma calibration_example_and_fallback_witness :
  exists ui', update_ain py_eval reads_1_and_2 ui_dividing = Ok ui' /\
    calibration ui' = <["pres" := default_formula]> (calibration ui_dividing) /\
    pres (status ui') = Some (PyFloat (5.0221 * (2 - 1) - 24.036)%float).
Proof.
  destruct (proj2 (proj2 calibration_example_and_fallback) py_eval py_eval_default
              ui_dividing reads_1_and_2 u3.new 1%float 2%float
              eq_refl eq_refl eq_refl eq_refl eq_refl)
    as (ui' & Hu & Hc & Hp & _).
  exists ui'. repeat split; assumption.
Defined.

(** ** The state log (C8, C9) *)

Lemma fresh_spec path files :
  negb (path_exists path files) || (getsize path files =? 0) = fresh path files.
Proof.
  unfold path_exists, getsize, fresh.
  destruct (files !! path) as [content|]; cbn; [|reflexivity].
  destruct content; reflexivity.
Qed.

Lemma fresh_iff path files :
  fresh path files = true <-> files !! path = None \/ files !! path = Some "".
Proof.
  unfold fresh. destruct (files !! path) as [content|].
  - rewrite str_eqb_nil. split; [intros ->; now right|now intros [[=]|[= ->]]].
  - split; [now left|reflexivity].
Qed.

Lemma append_file_twice path t1 t2 files :
  append_file path t2 (append_file path t1 files) = append_file path (t1 ++ t2) files.
Proof.
  unfold append_file. rewrite lookup_insert_eq, insert_insert_eq. cbn.
  now rewrite str_app_assoc.
Qed.

(** [log_state] as one write to the log file: the header when the file is
    fresh, then the data record; it raises, after the header, when a valve
    state has no label. *)
Lemma log_state_eq float_str timestamp ui path :
  log_file ui = Some path ->
  log_state float_str timestamp ui =
    (match log_fields float_str timestamp ui with
     | Some _ => Ok
     | None => Raised
     end)
      (with_disk
         (append_file path
            ((if fresh path (disk ui) then log_hdr else "") ++ row float_str timestamp ui)
            (disk ui))
         ui).
Proof.
  intros Hpath. unfold log_state, row. rewrite Hpath, fresh_spec.
  assert (Hf : forall d u, status u = status ui -> sample_name u = sample_name ui ->
                 log_fields float_str timestamp (with_disk d u)
                 = log_fields float_str timestamp ui).
  { intros d u Hs Hn. unfold log_fields. cbn [status sample_name with_disk].
    now rewrite Hs, Hn. }
  destruct (fresh path (disk ui)); cbn [disk with_disk];
    rewrite Hf by reflexivity;
    destruct (log_fields float_str timestamp ui);
    cbn [disk with_disk]; rewrite ?append_file_twice; reflexivity.
Qed.

Lemma log_msg_not_empty fields : log_msg fields <> "".
Proof.
  unfold log_msg. intros H. apply (f_equal String.length) in H.
  rewrite str_length_app in H. cbn in H. lia.
Qed.

Lemma rows_sample_name float_str calls u u' :
  sample_name u = sample_name u' -> rows float_str calls u = rows float_str calls u'.
Proof.
  intros Hn. induction calls as [|call calls IH]; [reflexivity|].
  cbn [rows]. unfold log_fields. cbn [status sample_name with_status].
  now rewrite Hn, IH.
Qed.

(** A file that is not empty only grows by data records. *)
Lemma log_states_not_fresh float_str calls ui path old :
  log_file ui = Some path -> disk ui !! path = Some old -> old <> "" ->
  disk (final (log_states float_str calls ui)) !! path
    = Some (old ++ rows float_str calls ui).
Proof.
  unfold log_states.
  revert ui old; induction calls as [|call calls IH]; intros ui old Hpath Hold Hne.
  - cbn [run_calls final rows]. now rewrite str_app_nil_r.
  - cbn [run_calls rows].
    rewrite (log_state_eq _ _ _ path) by exact Hpath.
    assert (Hfresh : fresh path (disk (with_status call.2 ui)) = false).
    { unfold fresh. cbn [disk with_status]. rewrite Hold.
      apply not_true_is_false. now rewrite str_eqb_nil. }
    rewrite Hfresh. unfold row.
    destruct (log_fields float_str call.1 (with_status call.2 ui)) as [fields|] eqn:Hfs.
    + rewrite (IH _ (old ++ log_msg fields)).
      * match goal with
        | |- context [rows float_str calls ?u] =>
            rewrite (rows_sample_name float_str calls u ui eq_refl)
        end.
        rewrite !str_app_assoc. reflexivity.
      * exact Hpath.
      * cbn [disk with_disk with_status]. unfold append_file.
        now rewrite lookup_insert_eq, Hold.
      * intros H. apply (f_equal String.length) in H.
        rewrite str_length_app in H. destruct old; [now apply Hne|].
        cbn [String.length] in H. lia.
    + cbn [final disk with_disk with_status]. unfold append_file.
      now rewrite lookup_insert_eq, Hold.
Qed.

(** C8: a call of [log_state] writes the header line exactly when the log
    file is missing or empty at that moment (and then before the data
    record, so that the header opens a fresh file); a file that is not
    empty grows by the data record alone.  Over any run of calls the header
    is therefore written at most once, by the first call and only into a
    fresh file: a run that appends to a file that is not empty writes data
    records only. *)
Theorem header_iff_file_fresh (float_str : float -> string) (timestamp : string)
    (ui : UI) (path : string) (Hpath : log_file ui = Some path) :
  let old := default "" (disk ui !! path) in
  let ui' := final (log_state float_str timestamp ui) in
  (fresh path (disk ui) = true <->
     disk ui !! path = None \/ disk ui !! path = Some "") /\
  disk ui' !! path =
    Some (old ++ (if fresh path (disk ui) then log_hdr else "")
              ++ row float_str timestamp ui) /\
  (disk ui' !! path = Some (old ++ log_hdr ++ row float_str timestamp ui) <->
     fresh path (disk ui) = true) /\
  (fresh path (disk ui) = true ->
     disk ui' !! path = Some (log_hdr ++ row float_str timestamp ui)) /\
  (forall calls, calls <> [] ->
     disk (final (log_states float_str calls ui)) !! path =
       Some (old ++ (if fresh path (disk ui) then log_hdr else "")
                 ++ rows float_str calls ui)).
Proof.
  cbv zeta.
  assert (Hone : forall st ts,
    disk (final (log_state float_str ts (with_status st ui))) !! path =
      Some (default "" (disk ui !! path)
            ++ (if fresh path (disk ui) then log_hdr else "")
            ++ row float_str ts (with_status st ui))).
  { intros st ts. rewrite (log_state_eq _ _ _ path) by exact Hpath.
    destruct (log_fields float_str ts (with_status st ui));
      cbn [final disk with_disk with_status]; unfold append_file;
      now rewrite lookup_insert_eq. }
  assert (Hui : with_status (status ui) ui = ui) by now destruct ui.
  assert (Hsingle := Hone (status ui) timestamp). rewrite Hui in Hsingle.
  split; [apply fresh_iff|]. split; [exact Hsingle|]. split; [|split].
  - rewrite Hsingle. destruct (fresh path (disk ui)); [tauto|].
    split; [|discriminate]. intros [= H]. exfalso.
    apply (f_equal String.length) in H.
    rewrite !str_length_app in H.
    assert ((0 < String.length log_hdr)%nat) by (vm_compute; lia).
    cbn [String.length] in H. lia.
  - intros Hfresh. rewrite Hsingle, Hfresh.
    apply fresh_iff in Hfresh as [-> | ->]; reflexivity.
  - intros [|call calls] Hne; [contradiction|clear Hne].
    unfold log_states. cbn [run_calls rows].
    pose proof (Hone call.2 call.1) as Hd.
    rewrite (log_state_eq _ _ _ path) in * by exact Hpath. unfold row in *.
    destruct (log_fields float_str call.1 (with_status call.2 ui)) as [fields|] eqn:Hfs.
    + cbn [final] in Hd.
      match type of Hd with
      | disk ?u !! _ = Some ?o =>
          pose proof (log_states_not_fresh float_str calls u path o Hpath Hd) as Hrest
      end.
      unfold log_states in Hrest. rewrite Hrest.
      * match goal with
        | |- context [rows float_str calls ?u] =>
            rewrite (rows_sample_name float_str calls u ui eq_refl)
        end.
        rewrite !str_app_assoc. reflexivity.
      * intros H. apply (f_equal String.length) in H.
        rewrite !str_length_app in H.
        pose proof (log_msg_not_empty fields) as Hm.
        destruct (log_msg fields); [now apply Hm|]. cbn [String.length] in H. lia.
    + exact Hd.
Qed.

(** Two state logs into a file that is not there yet: one header, then
    the two records. *)
Lemma header_iff_file_fresh_witness :
  log_file (ui_at_start "s1") = Some "run.csv" /\
  disk (final (log_states no_float
                 [("2024-05-01 12:00:00", closed_status);
                  ("2024-05-01 12:03:00", closed_status)]
                 (ui_at_start "s1"))) !! "run.csv" =
    Some ("" ++ log_hdr
          ++ rows no_float
               [("2024-05-01 12:00:00", closed_status);
                ("2024-05-01 12:03:00", closed_status)]
               (ui_at_start "s1")).
Proof.
  split; [reflexivity|].
  exact (proj2 (proj2 (proj2 (proj2
           (header_iff_file_fresh no_float "2024-05-01 12:00:00"
              (ui_at_start "s1") "run.csv" eq_refl))))
           [("2024-05-01 12:00:00", closed_status);
            ("2024-05-01 12:03:00", closed_status)]
           ltac:(discriminate)).
Defined.

(** ** The format of the log (C9) *)

Lemma split_on_free sep s : free_of sep s = true -> split_on sep s = [s].
Proof.
  induction s as [|c s IH]; cbn; [reflexivity|].
  intros H. apply andb_true_iff in H as [Hc Hs]. apply negb_true_iff in Hc.
  rewrite Hc, (IH Hs). reflexivity.
Qed.

Lemma split_on_app sep s rest :
  free_of sep s = true ->
  split_on sep (s ++ String sep rest) = s :: split_on sep rest.
Proof.
  induction s as [|c s IH].
  - intros _. change ("" ++ String sep rest) with (String sep rest).
    cbn [split_on]. now rewrite Ascii.eqb_refl.
  - intros H. cbn [free_of] in H. apply andb_true_iff in H as [Hc Hs].
    apply negb_true_iff in Hc.
    rewrite str_app_cons. cbn [split_on]. rewrite Hc, (IH Hs). reflexivity.
Qed.

(** Texts without the separator, joined by it and split at it again, come
    back as they were. *)
Lemma split_concat sep (l : list string) :
  l <> [] -> forallb (free_of sep) l = true ->
  split_on sep (String.concat (String sep "") l) = l.
Proof.
  induction l as [|x l IH]; [contradiction|]. intros _ H.
  cbn in H. apply andb_true_iff in H as [Hx Hl].
  destruct l as [|y l].
  - cbn. now apply split_on_free.
  - change (String.concat (String sep "") (x :: y :: l))
      with (x ++ String sep (String.concat (String sep "") (y :: l))).
    rewrite split_on_app by exact Hx. f_equal. now apply IH.
Qed.

Lemma free_of_app c a b : free_of c (a ++ b) = free_of c a && free_of c b.
Proof.
  induction a as [|x a IH]; [reflexivity|].
  rewrite str_app_cons. cbn [free_of]. now rewrite IH, andb_assoc.
Qed.

Lemma free_of_concat c sep (l : list string) :
  free_of c sep = true -> forallb (free_of c) l = true ->
  free_of c (String.concat sep l) = true.
Proof.
  intros Hsep. induction l as [|x l IH]; [reflexivity|]. intros H.
  cbn in H. apply andb_true_iff in H as [Hx Hl].
  destruct l as [|y l]; [exact Hx|].
  change (String.concat sep (x :: y :: l))
    with (x ++ sep ++ String.concat sep (y :: l)).
  rewrite !free_of_app, Hx, Hsep. cbn [andb]. now apply IH.
Qed.

Lemma state_label_cases st k l :
  state_label st k = Some l -> l = "Open" \/ l = "Closed".
Proof.
  unfold state_label, io_states. destruct (status_fio st k) as [[|[]|]|];
    intros [=]; auto.
Qed.

(** C9, as stated, fails: with the sample name [a,b] the data record has
    eleven comma-separated fields. *)
Lemma comma_in_sample_name :
  disk (final (log_state no_float "2024-05-01 12:00:00" (ui_at_start "a,b")))
    !! "run.csv" =
    Some (log_hdr
          ++ "2024-05-01 12:00:00,a,b,None,None,None,None,Closed,Closed,Closed,Closed"
          ++ String LF "") /\
  row no_float "2024-05-01 12:00:00" (ui_at_start "a,b") =
    "2024-05-01 12:00:00,a,b,None,None,None,None,Closed,Closed,Closed,Closed"
    ++ String LF "" /\
  length (fields_of (row no_float "2024-05-01 12:00:00" (ui_at_start "a,b")))
    = 11%nat.
Proof. vm_compute. repeat split. Qed.

(** C9, amended: the header line is the text below, with no comma between
    [voltage_diff] and [valve_state_1], followed by a line feed.  A data
    record is the ten texts timestamp, sample name, pressure, voltage 0,
    voltage 1, voltage difference and the labels (Open or Closed) of the
    four valve states, in this order, joined by commas and followed by a
    line feed; the texts are written as they are, so the record is one line
    of exactly ten comma-separated fields provided that the first six
    (the timestamp, the sample name the operator typed, and the readings as
    text) contain no comma and no line feed. *)
Theorem log_format (float_str : float -> string) (timestamp : string) (ui : UI)
    (fields : list string)
    (Hfields : log_fields float_str timestamp ui = Some fields)
    (Hcomma : forallb (free_of ","%char) (firstn 6 fields) = true)
    (Hline : forallb (free_of LF) (firstn 6 fields) = true) :
  log_hdr =
    "date,sample_name,pressure,voltage_0,voltage_1,voltage_diffvalve_state_1,valve_state_2,valve_state_3,valve_state_4"
    ++ String LF "" /\
  (exists l4 l5 l6 l7,
     fields = [ timestamp; sample_name ui;
                str_num float_str (pres (status ui));
                str_float float_str (ain0 (status ui));
                str_float float_str (ain1 (status ui));
                str_float float_str (vd (status ui));
                l4; l5; l6; l7 ] /\
     state_label (status ui) fio4 = Some l4 /\
     state_label (status ui) fio5 = Some l5 /\
     state_label (status ui) fio6 = Some l6 /\
     state_label (status ui) fio7 = Some l7 /\
     Forall (fun l => l = "Open" \/ l = "Closed") [l4; l5; l6; l7]) /\
  row float_str timestamp ui = String.concat "," fields ++ String LF "" /\
  length fields = 10%nat /\
  split_on LF (row float_str timestamp ui) = [String.concat "," fields; ""] /\
  fields_of (row float_str timestamp ui) = fields.
Proof.
  assert (Hrow : row float_str timestamp ui = String.concat "," fields ++ String LF "").
  { unfold row. now rewrite Hfields. }
  unfold log_fields in Hfields.
  destruct (state_label (status ui) fio4) as [l4|] eqn:E4; [|discriminate].
  destruct (state_label (status ui) fio5) as [l5|] eqn:E5; [|discriminate].
  destruct (state_label (status ui) fio6) as [l6|] eqn:E6; [|discriminate].
  destruct (state_label (status ui) fio7) as [l7|] eqn:E7; [|discriminate].
  injection Hfields as <-.
  pose proof (state_label_cases _ _ _ E4) as C4.
  pose proof (state_label_cases _ _ _ E5) as C5.
  pose proof (state_label_cases _ _ _ E6) as C6.
  pose proof (state_label_cases _ _ _ E7) as C7.
  assert (Hall : forall c, c = ","%char \/ c = LF ->
            forallb (free_of c)
              (firstn 6 [timestamp; sample_name ui;
                         str_num float_str (pres (status ui));
                         str_float float_str (ain0 (status ui));
                         str_float float_str (ain1 (status ui));
                         str_float float_str (vd (status ui)); l4; l5; l6; l7]) = true ->
            forallb (free_of c)
              [timestamp; sample_name ui;
               str_num float_str (pres (status ui));
               str_float float_str (ain0 (status ui));
               str_float float_str (ain1 (status ui));
               str_float float_str (vd (status ui)); l4; l5; l6; l7] = true).
  { intros c Hc H. cbn [firstn forallb] in H. cbn [forallb].
    rewrite !andb_true_iff in *. repeat split; try tauto;
      destruct Hc as [-> | ->];
      [destruct C4 as [-> | ->]|destruct C4 as [-> | ->]
      |destruct C5 as [-> | ->]|destruct C5 as [-> | ->]
      |destruct C6 as [-> | ->]|destruct C6 as [-> | ->]
      |destruct C7 as [-> | ->]|destruct C7 as [-> | ->]]; reflexivity. }
  pose proof (Hall _ (or_introl eq_refl) Hcomma) as Hc10.
  pose proof (Hall _ (or_intror eq_refl) Hline) as Hl10.
  assert (Hsplit : split_on LF (row float_str timestamp ui) =
            [String.concat "," [timestamp; sample_name ui;
               str_num float_str (pres (status ui));
               str_float float_str (ain0 (status ui));
               str_float float_str (ain1 (status ui));
               str_float float_str (vd (status ui)); l4; l5; l6; l7]; ""]).
  { rewrite Hrow. rewrite split_on_app; [reflexivity|].
    now apply free_of_concat. }
  split; [reflexivity|]. split.
  { exists l4, l5, l6, l7.
    split; [reflexivity|]. do 4 (split; [reflexivity|]).
    repeat (constructor 2; [assumption|]). constructor 1. }
  split; [exact Hrow|]. split; [reflexivity|]. split; [exact Hsplit|].
  unfold fields_of. rewrite Hsplit.
  apply (split_concat ","%char); [discriminate|exact Hc10].
Qed.

(** A record with the sample name [s1]: ten fields. *)
Lemma log_format_witness :
  fields_of (row no_float "2024-05-01 12:00:00" (ui_at_start "s1")) =
    [ "2024-05-01 12:00:00"; "s1"; "None"; "None"; "None"; "None";
      "Closed"; "Closed"; "Closed"; "Closed" ].
Proof.
  exact (proj2 (proj2 (proj2 (proj2 (proj2
           (log_format no_float "2024-05-01 12:00:00" (ui_at_start "s1")
              [ "2024-05-01 12:00:00"; "s1"; "None"; "None"; "None"; "None";
                "Closed"; "Closed"; "Closed"; "Closed" ]
              eq_refl eq_refl eq_refl)))))).
Defined.

(** ** Valve commands (C10) *)

Lemma toggle_fio_state_connected ui d fio_id k s :
  dev ui = Some d -> fio_of_id fio_id = Some k -> u3.getFIOState d fio_id = Some s ->
  toggle_fio_state fio_id ui =
    Ok (with_status
          (set_status_fio k (Some (if negb (s =? 0) then 0 else 1)) (status ui))
          (with_dev (Some (u3.setFIOState d fio_id (if negb (s =? 0) then 0 else 1))) ui)).
Proof.
  intros Hd Hk Hs. unfold toggle_fio_state. rewrite Hd, Hs.
  unfold update_fio_status. cbn [dev with_dev].
  unfold u3.getFIOState at 1, u3.setFIOState. cbn [u3.fio_state].
  rewrite lookup_insert_eq, Hk.
  destruct (s =? 0); reflexivity.
Qed.

(** C10: every valve actuation is a toggle.  With a device connected,
    [toggle_fio_state] reads the state of the port and writes 0 when it is
    not zero and 1 when it is zero (and stores the new state in the status
    dict, leaving the other ports alone); with none it does nothing.  The
    four manual slots are [toggle_fio_state] at 4..7, and every command of a
    sequence other than a sleep emits [toggle_fio] for one of the ports
    4..7, which [start_seq] connects to [toggle_fio_state].  So the
    messages of a sequence are right when it starts with all valves closed
    (every "opening" leaves its valve Open, every "closing" Closed), and
    wrong otherwise: with valve 2 open at the start, the step "opening
    valve 2" closes it. *)
Theorem valve_commands_toggle :
  (forall ui d fio_id k s,
     dev ui = Some d -> fio_of_id fio_id = Some k ->
     u3.getFIOState d fio_id = Some s ->
     exists ui' d',
       toggle_fio_state fio_id ui = Ok ui' /\ dev ui' = Some d' /\
       u3.getFIOState d' fio_id = Some (if negb (s =? 0) then 0 else 1) /\
       status_fio (status ui') k = Some (if negb (s =? 0) then 0 else 1) /\
       forall other, other <> fio_id ->
         u3.getFIOState d' other = u3.getFIOState d other) /\
  (forall ui fio_id, dev ui = None -> toggle_fio_state fio_id ui = Ok ui) /\
  (toggle_fio4_state = toggle_fio_state 4 /\ toggle_fio5_state = toggle_fio_state 5 /\
   toggle_fio6_state = toggle_fio_state 6 /\ toggle_fio7_state = toggle_fio_state 7) /\
  (forall z, forallb valve_or_sleep (LabJackerSeq.sequence z) = true) /\
  (forall fio_id t,
     LabJackerSeq.eval (LabJackerSeq.toggle_fio_emit fio_id) t =
       (LabJackerSeq.Value tt,
        extend t [LabJackerSeq.emit (LabJackerSeq.toggle_fio fio_id)])) /\
  (forall z ui, dev ui = Some u3.new ->
     fst (actuate (LabJackerSeq.sequence z) ui) =
       [ ("opening valve 2", Some "Open"); ("opening valve 3", Some "Open");
         ("opening valve 4", Some "Open"); ("closing valve 2", Some "Closed");
         ("closing valve 4", Some "Closed"); ("opening valve 1", Some "Open");
         ("closing valve 1", Some "Closed"); ("opening valve 2", Some "Open");
         ("opening valve 4", Some "Open"); ("closing valve 2", Some "Closed");
         ("closing valve 3", Some "Closed"); ("closing valve 4", Some "Closed") ]) /\
  (forall z ui, dev ui = Some valve_2_open ->
     fst (actuate (LabJackerSeq.sequence z) ui) =
       [ ("opening valve 2", Some "Closed"); ("opening valve 3", Some "Open");
         ("opening valve 4", Some "Open"); ("closing valve 2", Some "Open");
         ("closing valve 4", Some "Closed"); ("opening valve 1", Some "Open");
         ("closing valve 1", Some "Closed"); ("opening valve 2", Some "Closed");
         ("opening valve 4", Some "Open"); ("closing valve 2", Some "Open");
         ("closing valve 3", Some "Closed"); ("closing valve 4", Some "Closed") ]).
Proof.
  split; [|split; [|split; [|split; [|split; [|split]]]]].
  - intros ui d fio_id k s Hd Hk Hs.
    rewrite (toggle_fio_state_connected ui d fio_id k s Hd Hk Hs).
    eexists _, _. split; [reflexivity|]. split; [reflexivity|].
    split; [apply lookup_insert_eq|]. split.
    + cbn [status with_status]. now destruct k.
    + intros other Hne. unfold u3.getFIOState, u3.setFIOState. cbn [u3.fio_state].
      now apply lookup_insert_ne.
  - intros ui fio_id Hd. unfold toggle_fio_state. now rewrite Hd.
  - repeat split.
  - intros z. reflexivity.
  - reflexivity.
  - intros z [c d st lf sn files] Hd. cbn [dev] in Hd. subst d.
    vm_compute. reflexivity.
  - intros z [c d st lf sn files] Hd. cbn [dev] in Hd. subst d.
    vm_compute. reflexivity.
Qed.

(** The first valve command of a sequence, from the dummy device as it
    comes (all ports 1): port 5 goes to 0. *)
Lemma valve_commands_toggle_witness :
  exists ui' d',
    toggle_fio_state 5 (ui_at_start "s1") = Ok ui' /\ dev ui' = Some d' /\
    u3.getFIOState d' 5 = Some 0 /\ status_fio (status ui') fio5 = Some 0.
Proof.
  destruct (proj1 valve_commands_toggle (ui_at_start "s1") u3.new 5 fio5 1
              eq_refl eq_refl eq_refl) as (ui' & d' & H1 & H2 & H3 & H4 & _).
  exists ui', d'. repeat split; assumption.
Defined.

(** * The calibration file *)














(** * Valves *)

Lemma UI_eq (u u' : UI) :
  calibration u = calibration u' -> dev u = dev u' -> status u = status u' ->
  log_file u = log_file u' -> sample_name u = sample_name u' -> disk u = disk u' ->
  u = u'.
Proof. destruct u, u'; cbn; intros; subst; reflexivity. Qed.

Lemma Status_eq (s s' : Status) :
  temp s = temp s' -> ain0 s = ain0 s' -> ain1 s = ain1 s' -> vd s = vd s' ->
  pres s = pres s' -> (forall k, status_fio s k = status_fio s' k) ->
  seq_running s = seq_running s' -> s = s'.
Proof.
  destruct s, s'; cbn; intros ? ? ? ? ? Hk ?; subst.
  pose proof (Hk fio4). pose proof (Hk fio5). pose proof (Hk fio6). pose proof (Hk fio7).
  cbn in *. subst. reflexivity.
Qed.

Lemma U3_eq (d d' : u3.U3) :
  (forall i, u3.getFIOState d' i = u3.getFIOState d i) -> d' = d.
Proof.
  destruct d as [m], d' as [m']; unfold u3.getFIOState; cbn. intros H.
  f_equal. now apply map_eq.
Qed.

Lemma fio_of_id_port fio_id k : fio_of_id fio_id = Some k -> fio_id = port k.
Proof.
  unfold fio_of_id.
  destruct fio_id as [|p|p]; try discriminate.
  destruct p as [[[|[]|]|[|[]|]|]|[[|[]|]|[|[]|]|]|]; try discriminate;
    intros [= <-]; reflexivity.
Qed.

Lemma fio_of_id_of_port k : fio_of_id (port k) = Some k.
Proof. now destruct k. Qed.

Lemma port_inj k k' : port k = port k' -> k = k'.
Proof. destruct k, k'; intros [=]; reflexivity. Qed.

Lemma fio_eq_or_neq (k k' : fio) : k' = k \/ k' <> k.
Proof. destruct k, k'; (now left) || (right; discriminate). Qed.

Lemma status_fio_set_same k v st : status_fio (set_status_fio k v st) k = v.
Proof. now destruct k. Qed.

Lemma status_fio_set_other k k' v st :
  k' <> k -> status_fio (set_status_fio k v st) k' = status_fio st k'.
Proof. destruct k, k'; intros H; try reflexivity; now destruct H. Qed.

Lemma flipped_flipped s : s = 0 \/ s = 1 -> flipped (flipped s) = s.
Proof. intros [-> | ->]; reflexivity. Qed.

(** X4: with a device connected, a valve in state 0 or 1 and the status
    dict showing that state, one toggle of the valve writes the other state
    to the device and to the status dict, and a second toggle brings the
    whole object back to what it was. *)
Theorem toggle_twice_restores (ui : UI) (d : u3.U3) (fio_id : Z) (k : fio) (s : Z)
    (Hdev : dev ui = Some d) (Hk : fio_of_id fio_id = Some k)
    (Hs : u3.getFIOState d fio_id = Some s) (H01 : s = 0 \/ s = 1)
    (Hst : status_fio (status ui) k = Some s) :
  exists ui1 d1,
    toggle_fio_state fio_id ui = Ok ui1 /\
    dev ui1 = Some d1 /\
    u3.getFIOState d1 fio_id = Some (1 - s) /\
    status_fio (status ui1) k = Some (1 - s) /\
    toggle_fio_state fio_id ui1 = Ok ui.
Proof.
  rewrite (toggle_fio_state_connected ui d fio_id k s Hdev Hk Hs).
  fold (flipped s).
  assert (Hf : flipped s = 1 - s) by (destruct H01 as [-> | ->]; reflexivity).
  eexists _, _. split; [reflexivity|]. split; [reflexivity|].
  split; [rewrite <- Hf; apply lookup_insert_eq|].
  split; [cbn [status with_status]; now rewrite status_fio_set_same, <- Hf|].
  erewrite toggle_fio_state_connected;
    [|reflexivity|exact Hk|apply lookup_insert_eq].
  fold (flipped (flipped s)). rewrite flipped_flipped by exact H01.
  f_equal. destruct ui as [c dv st lf sn files]. cbn in *. subst dv.
  unfold with_status, with_dev; cbn. f_equal.
  - f_equal. apply U3_eq. intros i. unfold u3.getFIOState, u3.setFIOState in *. cbn in *.
    rewrite insert_insert_eq. destruct (decide (i = fio_id)) as [->|Hne].
    + now rewrite lookup_insert_eq.
    + now rewrite lookup_insert_ne by congruence.
  - apply Status_eq; try (destruct st, k; reflexivity).
    intros k'. destruct (fio_eq_or_neq k k') as [->|Hne].
    + now rewrite status_fio_set_same.
    + now rewrite !status_fio_set_other by exact Hne.
Qed.

(** Valve 2 of the dummy device, closed at the start: open, then closed
    again. *)
Lemma toggle_twice_restores_witness :
  exists ui1 d1,
    toggle_fio_state 5 (ui_at_start "s1") = Ok ui1 /\
    dev ui1 = Some d1 /\
    u3.getFIOState d1 5 = Some (1 - 1) /\
    status_fio (status ui1) fio5 = Some (1 - 1) /\
    toggle_fio_state 5 ui1 = Ok (ui_at_start "s1").
Proof.
  exact (toggle_twice_restores (ui_at_start "s1") u3.new 5 fio5 1
           eq_refl eq_refl eq_refl (or_intror eq_refl) eq_refl).
Defined.

Lemma actuate_toggle fio_id msg flag rest ui :
  snd (actuate ((toggle_fio_emit fio_id, msg, flag) :: rest) ui) =
    snd (actuate rest (final (toggle_fio_state fio_id ui))).
Proof.
  cbn [actuate]. unfold final.
  destruct (toggle_fio_state fio_id ui) as [u|u];
    destruct (actuate rest u) as [reports u'']; reflexivity.
Qed.

Lemma iter_flipped_succ n s : Nat.iter (S n) flipped s = Nat.iter n flipped (flipped s).
Proof. apply Nat.iter_succ_r. Qed.

(** What a run of valve commands leaves: every port has been flipped as
    many times as it is toggled, the status dict follows the device, and
    nothing else has changed. *)
Lemma actuate_spec commands :
  forall ui d,
    dev ui = Some d ->
    (forall k, is_Some (u3.getFIOState d (port k))) ->
    forallb valve_or_sleep commands = true ->
    exists d',
      dev (snd (actuate commands ui)) = Some d' /\
      (forall i, u3.getFIOState d' i =
                 Nat.iter (toggles commands i) flipped <$> u3.getFIOState d i) /\
      (mirrors (status ui) d -> mirrors (status (snd (actuate commands ui))) d') /\
      calibration (snd (actuate commands ui)) = calibration ui /\
      log_file (snd (actuate commands ui)) = log_file ui /\
      sample_name (snd (actuate commands ui)) = sample_name ui /\
      disk (snd (actuate commands ui)) = disk ui /\
      temp (status (snd (actuate commands ui))) = temp (status ui) /\
      ain0 (status (snd (actuate commands ui))) = ain0 (status ui) /\
      ain1 (status (snd (actuate commands ui))) = ain1 (status ui) /\
      vd (status (snd (actuate commands ui))) = vd (status ui) /\
      pres (status (snd (actuate commands ui))) = pres (status ui) /\
      seq_running (status (snd (actuate commands ui))) = seq_running (status ui).
Proof.
  induction commands as [|[[c msg] flag] commands IH]; intros ui d Hdev Hports Hok.
  - exists d. cbn [actuate snd toggles Nat.iter]. split; [exact Hdev|].
    split; [intros i; now destruct (u3.getFIOState d i)|]. repeat split; auto.
  - cbn [forallb] in Hok. apply andb_true_iff in Hok as [Hc Hok].
    destruct c as [secs|fio_id|b].
    + cbn [actuate toggles]. now apply IH.
    + unfold valve_or_sleep in Hc. cbn [fst] in Hc.
      apply bool_decide_eq_true in Hc. destruct Hc as [k Hk].
      pose proof (fio_of_id_port _ _ Hk) as ->.
      destruct (Hports k) as [s Hs].
      rewrite actuate_toggle.
      rewrite (toggle_fio_state_connected ui d (port k) k s Hdev Hk Hs).
      fold (flipped s). cbn [final].
      set (d1 := u3.setFIOState d (port k) (flipped s)).
      set (ui1 := with_status _ _).
      assert (Hd1 : forall i, u3.getFIOState d1 i =
                      if decide (i = port k) then Some (flipped s) else u3.getFIOState d i).
      { intros i. unfold d1, u3.getFIOState, u3.setFIOState. cbn [u3.fio_state].
        destruct (decide (i = port k)) as [->|Hne].
        - apply lookup_insert_eq.
        - now apply lookup_insert_ne. }
      destruct (IH ui1 d1) as (d' & Hdev' & Hst' & Hmir' & Hrest); [reflexivity| |exact Hok|].
      { intros k'. rewrite Hd1. destruct (decide (port k' = port k)); [eauto|apply Hports]. }
      exists d'. split; [exact Hdev'|]. split; [|split].
      * intros i. rewrite Hst', Hd1. cbn [toggles].
        destruct (decide (i = port k)) as [->|Hne].
        -- rewrite Z.eqb_refl, Hs. cbn [fmap option_fmap option_map Nat.add].
           now rewrite iter_flipped_succ.
        -- assert (Hneq : (port k =? i) = false) by (apply Z.eqb_neq; congruence).
           rewrite Hneq. reflexivity.
      * intros Hmir. apply Hmir'. intros k'. subst ui1. cbn [status with_status].
        rewrite Hd1. destruct (fio_eq_or_neq k k') as [->|Hne].
        -- rewrite status_fio_set_same. now destruct (decide (port k = port k)).
        -- rewrite status_fio_set_other by exact Hne.
           destruct (decide (port k' = port k)) as [He|]; [|apply Hmir].
           now apply port_inj in He.
      * subst ui1. cbn [calibration log_file sample_name disk status with_status with_dev] in Hrest.
        destruct (status ui), k; exact Hrest.
    + discriminate Hc.
Qed.

Lemma toggles_sequence z i :
  toggles (sequence z) i =
    if i =? 4 then 2%nat else if i =? 5 then 4%nat
    else if i =? 6 then 2%nat else if i =? 7 then 4%nat else 0%nat.
Proof.
  cbn [toggles sequence].
  destruct (Z.eqb_spec i 4) as [->|H4]; [reflexivity|].
  destruct (Z.eqb_spec i 5) as [->|H5]; [reflexivity|].
  destruct (Z.eqb_spec i 6) as [->|H6]; [reflexivity|].
  destruct (Z.eqb_spec i 7) as [->|H7]; [reflexivity|].
  assert (E4 : (4 =? i) = false) by (apply Z.eqb_neq; congruence).
  assert (E5 : (5 =? i) = false) by (apply Z.eqb_neq; congruence).
  assert (E6 : (6 =? i) = false) by (apply Z.eqb_neq; congruence).
  assert (E7 : (7 =? i) = false) by (apply Z.eqb_neq; congruence).
  rewrite E4, E5, E6, E7. reflexivity.
Qed.

(** X6: the valve commands of a list, delivered in order to a device whose
    valves hold 0 or 1 and which the status dict mirrors, leave every port
    flipped as many times as the list toggles it, still 0 or 1 and still
    mirrored.  The list of [set_sequence] toggles every valve an even number
    of times (valves 1 and 3 twice, 2 and 4 four times): a complete loop
    leaves the device and the status dict exactly as it found them, so that
    every loop of a run starts from the same valve states. *)
Theorem valves_after_commands (commands : list Command) (ui : UI) (d : u3.U3)
    (Hdev : dev ui = Some d)
    (Hports : two_valued d)
    (Hmir : mirrors (status ui) d)
    (Hok : forallb valve_or_sleep commands = true) :
  (exists d',
     dev (snd (actuate commands ui)) = Some d' /\
     two_valued d' /\
     mirrors (status (snd (actuate commands ui))) d' /\
     forall i, u3.getFIOState d' i =
               Nat.iter (toggles commands i) flipped <$> u3.getFIOState d i) /\
  (forall z, snd (actuate (sequence z) ui) = ui).
Proof.
  assert (Hpres : forall k, is_Some (u3.getFIOState d (port k))).
  { intros k. destruct (Hports k) as [-> | ->]; eauto. }
  assert (Hiter : forall n s, s = 0 \/ s = 1 ->
            Nat.iter n flipped s = 0 \/ Nat.iter n flipped s = 1).
  { intros n s Hs. induction n as [|n IH]; [exact Hs|].
    rewrite Nat.iter_succ. destruct IH as [-> | ->]; auto. }
  split.
  - destruct (actuate_spec commands ui d Hdev Hpres Hok) as (d' & Hd' & Hst & Hm & _).
    exists d'. split; [exact Hd'|]. split; [|split; [now apply Hm|exact Hst]].
    intros k. rewrite Hst.
    destruct (Hports k) as [-> | ->]; cbn [fmap option_fmap option_map];
      [destruct (Hiter (toggles commands (port k)) 0 (or_introl eq_refl)) as [-> | ->]
      |destruct (Hiter (toggles commands (port k)) 1 (or_intror eq_refl)) as [-> | ->]];
      auto.
  - intros z.
    destruct (actuate_spec (sequence z) ui d Hdev Hpres eq_refl)
      as (d' & Hd' & Hst & Hm & Hc & Hl & Hn & Hdisk & Ht & H0 & H1 & Hv & Hp & Hr).
    assert (Hdd : d' = d).
    { apply U3_eq. intros i. rewrite Hst, toggles_sequence.
      assert (H2 : forall s, s = 0 \/ s = 1 -> Nat.iter 2 flipped s = s)
        by (intros s [-> | ->]; reflexivity).
      assert (H4 : forall s, s = 0 \/ s = 1 -> Nat.iter 4 flipped s = s)
        by (intros s [-> | ->]; reflexivity).
      assert (Hval : forall k, exists s, u3.getFIOState d (port k) = Some s /\ (s = 0 \/ s = 1)).
      { intros k. destruct (Hports k) as [Hk | Hk]; rewrite Hk; eauto. }
      destruct (Z.eqb_spec i 4) as [->|_];
        [destruct (Hval fio4) as (s & Hs & H01); cbn [port] in Hs; rewrite Hs; cbn [fmap option_fmap option_map]; now rewrite H2|].
      destruct (Z.eqb_spec i 5) as [->|_];
        [destruct (Hval fio5) as (s & Hs & H01); cbn [port] in Hs; rewrite Hs; cbn [fmap option_fmap option_map]; now rewrite H4|].
      destruct (Z.eqb_spec i 6) as [->|_];
        [destruct (Hval fio6) as (s & Hs & H01); cbn [port] in Hs; rewrite Hs; cbn [fmap option_fmap option_map]; now rewrite H2|].
      destruct (Z.eqb_spec i 7) as [->|_];
        [destruct (Hval fio7) as (s & Hs & H01); cbn [port] in Hs; rewrite Hs; cbn [fmap option_fmap option_map]; now rewrite H4|].
      now destruct (u3.getFIOState d i). }
    subst d'.
    apply UI_eq; try assumption; [congruence|].
    apply Status_eq; try assumption.
    intros k. rewrite (Hm Hmir k). symmetry. apply Hmir.
Qed.

(** From the dummy device as it comes, at an interval of 5 seconds. *)
Lemma valves_after_commands_witness :
  snd (actuate (sequence 5) (ui_at_start "s1")) = ui_at_start "s1".
Proof.
  refine (proj2 (valves_after_commands (sequence 5) (ui_at_start "s1") u3.new
                   eq_refl _ _ eq_refl) 5).
  - intros k. right. now destruct k.
  - intros k. now destruct k.
Defined.

(** * Whole runs of the sequence thread *)















(** * The polls and the state log at their edges *)


Lemma state_label_none st k :
  status_fio st k <> Some 0 -> status_fio st k <> Some 1 -> state_label st k = None.
Proof.
  unfold state_label, io_states. destruct (status_fio st k) as [[|[]|]|]; try reflexivity;
    intros H0 H1; now (destruct H0 || destruct H1).
Qed.

(** X11: how [log_state] fails.  With no log file chosen it raises and
    nothing is written.  When a valve entry of the status dict is neither 0
    nor 1 ([None] after a disconnect) it raises at the lookup of the label,
    after the file has been opened and the header written to a fresh file:
    what is left is a file with the header, or the old content, and no
    record.  Whether it returns or raises, no other file is touched, nor the
    device, the status dict or the calibration. *)
Theorem log_state_failures (float_str : float -> string) (timestamp : string) (ui : UI) :
  (log_file ui = None -> log_state float_str timestamp ui = Raised ui) /\
  (forall path k,
     log_file ui = Some path ->
     status_fio (status ui) k <> Some 0 -> status_fio (status ui) k <> Some 1 ->
     log_state float_str timestamp ui =
       Raised (with_disk
                 (<[path := default "" (disk ui !! path)
                            ++ (if fresh path (disk ui) then log_hdr else "")]> (disk ui))
                 ui)) /\
  (forall path other,
     log_file ui = Some path -> other <> path ->
     disk (final (log_state float_str timestamp ui)) !! other = disk ui !! other) /\
  calibration (final (log_state float_str timestamp ui)) = calibration ui /\
  dev (final (log_state float_str timestamp ui)) = dev ui /\
  status (final (log_state float_str timestamp ui)) = status ui.
Proof.
  split; [|split; [|split]].
  - intros H. unfold log_state. now rewrite H.
  - intros path k Hpath H0 H1.
    rewrite (log_state_eq _ _ _ path) by exact Hpath.
    assert (Hf : log_fields float_str timestamp ui = None).
    { unfold log_fields. pose proof (state_label_none _ _ H0 H1) as Hk.
      destruct k; rewrite Hk;
        repeat (match goal with |- context [state_label ?s ?k] =>
                  destruct (state_label s k) end); reflexivity. }
    unfold row. rewrite Hf. unfold append_file. now rewrite str_app_nil_r.
  - intros path other Hpath Hne.
    rewrite (log_state_eq _ _ _ path) by exact Hpath.
    destruct (log_fields float_str timestamp ui); cbn [final disk with_disk];
      unfold append_file; now rewrite lookup_insert_ne by congruence.
  - destruct (log_file ui) as [path|] eqn:Hpath.
    + rewrite (log_state_eq _ _ _ path) by exact Hpath.
      destruct (log_fields float_str timestamp ui); repeat split.
    + unfold log_state. rewrite Hpath. repeat split.
Qed.
